(** * Deep-Residual-Matting: the training loop of [train.py]

    A shallow embedding of [train_net] and [train] and of the collaborators
    they call, with the checkpoint / early-stopping bookkeeping of the
    epoch loop as the main object of study.

    - Python [float] is IEEE binary64; it is modelled by [spec_float] with
      the comparison and arithmetic of the Standard Library's [SpecFloat]
      (infinities and NaN included).
    - Python [int] is [Z].
    - The checkpoint files are a finite map from path to checkpoint.
    - Calls to collaborators (torch, the logger, the TensorBoard writer,
      [save_checkpoint], [test]) are recorded as events, in program order.
    - The only exceptions the module itself can raise are the
      [ZeroDivisionError] of [i % print_freq] and the failure of
      [torch.load] on a path that holds no checkpoint.
    - [valid] is never called (its call is commented out in [train_net]);
      it is embedded on its own, by explicit state passing. [main] only
      hands the parsed arguments to [train_net] and is not embedded. *)

From Stdlib Require Import ZArith List Bool Lia.
From Stdlib Require Floats.SpecFloat.
From stdpp Require Import base option list strings gmap.

Local Open Scope Z_scope.

(** * Part I: definitions *)

(** ** Python floats *)

Module PyFloat.

Import SpecFloat.

Definition float : Type := spec_float.

Definition prec : Z := 53.
Definition emax : Z := 1024.

(** [float('inf')], [float('nan')], [0.0] *)
Definition inf : float := S754_infinity false.
Definition nan : float := S754_nan.
Definition zero : float := S754_zero false.

Definition is_nan (x : float) : bool :=
  match x with S754_nan => true | _ => false end.

(** [x < y], [x <= y], [x == y] *)
Definition ltb (x y : float) : bool := SFltb x y.
Definition leb (x y : float) : bool := SFleb x y.
Definition eqb (x y : float) : bool := SFeqb x y.

Definition add (x y : float) : float := SFadd prec emax x y.
Definition div (x y : float) : float := SFdiv prec emax x y.
Definition opp (x : float) : float := SFopp x.
Definition abs (x : float) : float := SFabs x.

(** [float(n)] for a Python int [n] *)
Definition of_Z (n : Z) : float := binary_normalize prec emax n 0 false.

(** The literal [n / d] for small integers, e.g. [0.05] is [ratio 5 100]:
    both operands are exact and the division rounds to nearest. *)
Definition ratio (n d : Z) : float := div (of_Z n) (of_Z d).

(** The built-in [min(a, b)] on two arguments: the first argument is kept
    unless the second compares strictly below it. *)
Definition min (a b : float) : float := if ltb b a then b else a.

End PyFloat.

Import PyFloat.

(** The arithmetic is run on concrete values only. *)
Arguments add : simpl never.
Arguments div : simpl never.
Arguments of_Z : simpl never.
Arguments ratio : simpl never.

(** ** [utils.AverageMeter] *)

Module AverageMeter.

(** Modelled from the spec: the class [AverageMeter] of [utils.py] is not
    part of the sources at hand. The spec's MetricAccumulator has
    [update(value)] append one observation, [average] return the running
    mean of the observations since the last reset, and [reset()] clear the
    state. [train] reads the attributes [val] (the last observation) and
    [avg]. *)
Record t : Type := { val : float; avg : float; sum : float; count : Z }.

(** Modelled from the spec: [reset()] clears the state. *)
Definition reset (_ : t) : t :=
  {| val := zero; avg := zero; sum := zero; count := 0 |}.

(** Modelled from the spec: [AverageMeter()], a meter in its cleared state. *)
Definition new : t := reset {| val := zero; avg := zero; sum := zero; count := 0 |}.

(** Modelled from the spec: [update(value)] appends one observation and
    brings the running mean up to date. *)
Definition update (m : t) (v : float) : t :=
  let sum' := add (sum m) v in
  let count' := count m + 1 in
  {| val := v; sum := sum'; count := count'; avg := div sum' (of_Z count') |}.

(** The mean of a list of observations, as the spec words it: their sum
    (taken from left to right) divided by their number. *)
Definition mean (xs : list float) : float :=
  div (fold_left add xs zero) (of_Z (Z.of_nat (length xs))).

End AverageMeter.

(** ** [utils.clip_gradient] *)

Module GradientLimiter.

(** Modelled from the spec: [clip_gradient] of [utils.py] is not part of the
    sources at hand. The spec's GradientLimiter clamps each parameter's
    accumulated gradient so that no individual gradient value exceeds the
    configured bound, a fixed scalar threshold and not a global-norm
    rescale. *)
Definition clamp (bound g : float) : float :=
  if ltb g (opp bound) then opp bound
  else if ltb bound g then bound
  else g.

(** Modelled from the spec: the clamp applied to every value of every
    parameter's gradient buffer. *)
Definition clip (grads : list (list float)) (bound : float) : list (list float) :=
  map (map (clamp bound)) grads.

End GradientLimiter.

(** ** Collaborators *)

(** What [train.py] imports from torch, [models.deeplab], [data_gen] and
    [utils], as an interface. The model and the optimizer share the
    parameter tensors and their gradient buffers, so the operations that
    touch gradients or parameters act on the pair. *)
Class Torch : Type := {
  Model : Type;
  Optimizer : Type;
  Batch : Type;
  Tensor : Type;
  Loader : Type;
  (** [nn.DataParallel(DeepLab(backbone='mobilenet', ...)).to(device)] under
      the fixed seed *)
  DeepLab : Model;
  (** [torch.optim.Adam(model.parameters(), lr=lr)] *)
  Adam : Model -> float -> Optimizer;
  (** [DataLoader(DIMDataset('train'), batch_size=..., shuffle=True, ...)] *)
  DataLoader : Z -> Loader;
  (** one pass over the loader: the batches in the order drawn for this
      pass, and the loader afterwards *)
  iterate : Loader -> list Batch * Loader;
  (** [len(train_loader)] *)
  len : Loader -> Z;
  (** [model.train()] *)
  model_train : Model -> Model;
  (** [model(img)] and the reshapes around it *)
  model_call : Model -> Batch -> Model * Tensor;
  alpha_prediction_loss : Tensor -> Batch -> Tensor;
  (** [loss.item()] *)
  item : Tensor -> float;
  (** [optimizer.zero_grad()] *)
  zero_grad : Model * Optimizer -> Model * Optimizer;
  (** [loss.backward()] *)
  backward : Tensor -> Model * Optimizer -> Model * Optimizer;
  (** [clip_gradient(optimizer, grad_clip)] *)
  clip_gradient : Model * Optimizer -> float -> Model * Optimizer;
  (** [optimizer.step()] *)
  step : Model * Optimizer -> Model * Optimizer;
  get_learning_rate : Optimizer -> float
}.

(** The constants [train.py] imports from [config.py]. *)
Class Config : Type := {
  grad_clip : float;
  print_freq : Z
}.

(** ** Events, exceptions, state *)

Inductive Event : Type :=
| ModelTrain                                  (* model.train() *)
| ModelCall                                   (* model(img) *)
| ZeroGrad                                    (* optimizer.zero_grad() *)
| Backward                                    (* loss.backward() *)
| ClipGradient (bound : float)                (* clip_gradient(optimizer, grad_clip) *)
| OptimizerStep                               (* optimizer.step() *)
| LoggerInfoBatch (epoch i n : Z) (val avg : float)
| PrintLr (lr : float)
| AddScalar (tag : string) (value : float) (step : Z)
| Test                                        (* test(model) *)
| LoggerInfoTest (sad mse : float)
| PrintStall (n : Z)
| SaveCheckpoint (epoch stall : Z) (loss : float) (is_best : bool).

Inductive exn : Type :=
| ZeroDivisionError
| FileNotFoundError (path : string).

Inductive outcome (A : Type) : Type :=
| Ret (a : A)
| Raise (e : exn).

Arguments Ret {A} a.
Arguments Raise {A} e.

Section TrainPy.

Context `{T : Torch} `{C : Config}.

(** Modelled from the spec: [test] of [test.py] is not part of the sources
    at hand. The spec's evaluation collaborator is
    [evaluate(model) -> (sad_score, mse_score)], a pure function of the
    model weights and a fixed evaluation set. *)
Variable test : Model -> float * float.

(** The dictionary [save_checkpoint] stores and [torch.load] returns. *)
Record Checkpoint : Type := {
  ck_epoch : Z;
  ck_epochs_since_improvement : Z;
  ck_loss : float;
  ck_model : Model;
  ck_optimizer : Optimizer
}.

(** The objects and local variables of [train_net] once initialised, the
    checkpoint files, and the events so far (oldest first). *)
Record State : Type := {
  model : Model;
  optimizer : Optimizer;
  best_loss : float;
  epochs_since_improvement : Z;
  train_loader : Loader;
  files : gmap string Checkpoint;
  trace : list Event
}.

Definition M (A : Type) : Type := State -> State * outcome A.

Definition ret {A} (a : A) : M A := fun s => (s, Ret a).

Definition bind {A B} (c : M A) (k : A -> M B) : M B :=
  fun s =>
    match c s with
    | (s', Ret a) => k a s'
    | (s', Raise e) => (s', Raise e)
    end.

Definition raise {A} (e : exn) : M A := fun s => (s, Raise e).

Definition gets {A} (f : State -> A) : M A := fun s => (s, Ret (f s)).

Definition modify (f : State -> State) : M unit := fun s => (f s, Ret tt).

Declare Scope py_scope.
Delimit Scope py_scope with py.

Notation "x <- c ;; k" := (bind c (fun x => k))
  (at level 20, c at level 99, k at level 200, only parsing) : py_scope.
Notation "c ;; k" := (bind c (fun _ => k))
  (at level 100, k at level 200, only parsing, right associativity) : py_scope.

Local Open Scope py_scope.

(** A call to a collaborator leaves its event in the trace. *)
Definition emit (e : Event) : M unit :=
  modify (fun s =>
    {| model := model s; optimizer := optimizer s; best_loss := best_loss s;
       epochs_since_improvement := epochs_since_improvement s;
       train_loader := train_loader s; files := files s;
       trace := trace s ++ [e] |}).

(** An operation of torch on the model and the optimizer. *)
Definition on_net (f : Model * Optimizer -> Model * Optimizer) : M unit :=
  modify (fun s =>
    let '(m, o) := f (model s, optimizer s) in
    {| model := m; optimizer := o; best_loss := best_loss s;
       epochs_since_improvement := epochs_since_improvement s;
       train_loader := train_loader s; files := files s;
       trace := trace s |}).

Definition set_best_loss (x : float) : M unit :=
  modify (fun s =>
    {| model := model s; optimizer := optimizer s; best_loss := x;
       epochs_since_improvement := epochs_since_improvement s;
       train_loader := train_loader s; files := files s;
       trace := trace s |}).

Definition set_epochs_since_improvement (n : Z) : M unit :=
  modify (fun s =>
    {| model := model s; optimizer := optimizer s; best_loss := best_loss s;
       epochs_since_improvement := n;
       train_loader := train_loader s; files := files s;
       trace := trace s |}).

Definition set_train_loader (l : Loader) : M unit :=
  modify (fun s =>
    {| model := model s; optimizer := optimizer s; best_loss := best_loss s;
       epochs_since_improvement := epochs_since_improvement s;
       train_loader := l; files := files s;
       trace := trace s |}).

(** [torch.save(state, path)] *)
Definition torch_save (state : Checkpoint) (path : string) : M unit :=
  modify (fun s =>
    {| model := model s; optimizer := optimizer s; best_loss := best_loss s;
       epochs_since_improvement := epochs_since_improvement s;
       train_loader := train_loader s; files := <[path := state]> (files s);
       trace := trace s |}).

(** [a % b] on Python ints *)
Definition py_mod (a b : Z) : M Z :=
  if b =? 0 then raise ZeroDivisionError else ret (a mod b).

(** [range(a, b)] *)
Definition range (a b : Z) : list Z := seqZ a (b - a).

(** [enumerate(xs)] *)
Definition enumerate {A} (xs : list A) : list (Z * A) :=
  zip (seqZ 0 (Z.of_nat (length xs))) xs.

(** [for x in xs: body(x)] *)
Fixpoint for_ {A} (xs : list A) (body : A -> M unit) : M unit :=
  match xs with
  | [] => ret tt
  | x :: xs => body x ;; for_ xs body
  end.

(** ** [utils.save_checkpoint] *)

(** Modelled from the spec: [save_checkpoint] of [utils.py] is not part of
    the sources at hand. The spec's CheckpointStore.save writes the full
    training state to a "latest" slot unconditionally and to a "best" slot
    only when [is_best] is true. *)
Definition save_checkpoint (epoch stall : Z) (m : Model) (o : Optimizer)
    (loss : float) (is_best : bool) : M unit :=
  let state :=
    {| ck_epoch := epoch; ck_epochs_since_improvement := stall;
       ck_loss := loss; ck_model := m; ck_optimizer := o |} in
  emit (SaveCheckpoint epoch stall loss is_best) ;;
  torch_save state "latest" ;;
  if is_best then torch_save state "best" else ret tt.

(** ** [train] *)

(** The body of the loop over batches, lines 105-136; [losses] is the
    meter of the enclosing call, returned after its update. *)
Definition train_batch (epoch : Z) (losses : AverageMeter.t)
    (i : Z) (batch : Batch) : M AverageMeter.t :=
  (* Forward prop. *)
  m <- gets model ;;
  let '(m', alpha_out) := model_call m batch in
  emit ModelCall ;;
  on_net (fun '(_, o) => (m', o)) ;;
  (* Calculate loss *)
  let loss := alpha_prediction_loss alpha_out batch in
  (* Back prop. *)
  emit ZeroGrad ;; on_net zero_grad ;;
  emit Backward ;; on_net (backward loss) ;;
  (* Clip gradients *)
  emit (ClipGradient grad_clip) ;;
  on_net (fun net => clip_gradient net grad_clip) ;;
  (* Update weights *)
  emit OptimizerStep ;; on_net step ;;
  (* Keep track of metrics *)
  let losses := AverageMeter.update losses (item loss) in
  (* Print status *)
  r <- py_mod i print_freq ;;
  (if r =? 0 then
     l <- gets train_loader ;;
     emit (LoggerInfoBatch epoch i (len l)
             (AverageMeter.val losses) (AverageMeter.avg losses))
   else ret tt) ;;
  ret losses.

Fixpoint train_batches (epoch : Z) (losses : AverageMeter.t)
    (batches : list (Z * Batch)) : M AverageMeter.t :=
  match batches with
  | [] => ret losses
  | (i, batch) :: rest =>
      losses <- train_batch epoch losses i batch ;;
      train_batches epoch losses rest
  end.

Definition train (epoch : Z) : M float :=
  emit ModelTrain ;; on_net (fun '(m, o) => (model_train m, o)) ;;
  let losses := AverageMeter.new in
  l <- gets train_loader ;;
  let '(batches, l') := iterate l in
  set_train_loader l' ;;
  losses <- train_batches epoch losses (enumerate batches) ;;
  ret (AverageMeter.avg losses).

(** ** [train_net] *)

Record Args : Type := {
  checkpoint : option string;
  lr : float;
  batch_size : Z;
  end_epoch : Z
}.

(** [test(model)], line 77 *)
Definition call_test : M (float * float) :=
  m <- gets model ;;
  emit Test ;;
  ret (test m).

(** The body of the loop over epochs, lines 56-95. *)
Definition epoch_body (epoch : Z) : M unit :=
  (* One epoch's training *)
  train_loss <- train epoch ;;
  o <- gets optimizer ;;
  emit (PrintLr (get_learning_rate o)) ;;
  emit (AddScalar "model/train_loss" train_loss epoch) ;;
  (* One epoch's test *)
  scores <- call_test ;;
  let '(sad_loss, mse_loss) := scores in
  emit (AddScalar "model/sad_loss" sad_loss epoch) ;;
  emit (AddScalar "model/mse_loss" mse_loss epoch) ;;
  (* Print status *)
  emit (LoggerInfoTest sad_loss mse_loss) ;;
  (* Check if there was an improvement *)
  best <- gets best_loss ;;
  let is_best := ltb mse_loss best in
  set_best_loss (min mse_loss best) ;;
  (if negb is_best then
     n <- gets epochs_since_improvement ;;
     set_epochs_since_improvement (n + 1) ;;
     n <- gets epochs_since_improvement ;;
     emit (PrintStall n)
   else
     set_epochs_since_improvement 0) ;;
  (* Save checkpoint *)
  n <- gets epochs_since_improvement ;;
  m <- gets model ;;
  o <- gets optimizer ;;
  best <- gets best_loss ;;
  save_checkpoint epoch n m o best is_best.

(** What a call of [train_net] comes to: [torch.load] failed before any
    state was set up, or the loop ran from the initial state. *)
Inductive Run : Type :=
| LoadFailed (e : exn)
| Ran (start_epoch : Z) (s : State) (r : outcome unit).

(** Lines 16-47: the start epoch and the state the loop starts from. *)
Definition initialize (args : Args) (fs : gmap string Checkpoint)
    : outcome (Z * State) :=
  let start_epoch := 0 in
  let best_loss := inf in
  let epochs_since_improvement := 0 in
  let train_loader := DataLoader (batch_size args) in
  match checkpoint args with
  | None =>
      let model := DeepLab in
      let optimizer := Adam model (lr args) in
      Ret (start_epoch,
           {| model := model; optimizer := optimizer; best_loss := best_loss;
              epochs_since_improvement := epochs_since_improvement;
              train_loader := train_loader; files := fs; trace := [] |})
  | Some path =>
      match fs !! path with
      | None => Raise (FileNotFoundError path)
      | Some ck =>
          let start_epoch := ck_epoch ck + 1 in
          let epochs_since_improvement := ck_epochs_since_improvement ck in
          let model := ck_model ck in
          let optimizer := ck_optimizer ck in
          Ret (start_epoch,
               {| model := model; optimizer := optimizer;
                  best_loss := best_loss;
                  epochs_since_improvement := epochs_since_improvement;
                  train_loader := train_loader; files := fs; trace := [] |})
      end
  end.

Definition train_net (args : Args) (fs : gmap string Checkpoint) : Run :=
  match initialize args fs with
  | Raise e => LoadFailed e
  | Ret (start_epoch, s) =>
      let '(s', r) := for_ (range start_epoch (end_epoch args)) epoch_body s in
      Ran start_epoch s' r
  end.

(** *** The loops as functions of what they read

    [train] reads the model, the optimizer and the loader and nothing else
    of the state; these definitions say what it computes from them. They
    are related to the code by the lemmas [train_batches_pass] and
    [train_reads]. *)

(** The model and the optimizer after one batch, and the loss value. *)
Definition batch_update (net : Model * Optimizer) (batch : Batch)
    : (Model * Optimizer) * float :=
  let '(m', alpha_out) := model_call net.1 batch in
  let loss := alpha_prediction_loss alpha_out batch in
  (step (clip_gradient (backward loss (zero_grad (m', net.2))) grad_clip),
   item loss).

(** The loss values of a list of batches, from a given model and optimizer. *)
Fixpoint batch_losses (net : Model * Optimizer) (batches : list Batch)
    : list float :=
  match batches with
  | [] => []
  | batch :: rest =>
      let '(net', v) := batch_update net batch in v :: batch_losses net' rest
  end.

Definition update_events : list Event :=
  [ModelCall; ZeroGrad; Backward; ClipGradient grad_clip; OptimizerStep].

Definition batch_log (epoch i n : Z) (losses : AverageMeter.t) : list Event :=
  if i mod print_freq =? 0
  then [LoggerInfoBatch epoch i n (AverageMeter.val losses) (AverageMeter.avg losses)]
  else [].

Fixpoint pass (epoch n : Z) (net : Model * Optimizer) (losses : AverageMeter.t)
    (batches : list (Z * Batch))
    : (Model * Optimizer) * list Event * outcome AverageMeter.t :=
  match batches with
  | [] => (net, [], Ret losses)
  | (i, batch) :: rest =>
      let '(net', v) := batch_update net batch in
      let losses' := AverageMeter.update losses v in
      if print_freq =? 0 then (net', update_events, Raise ZeroDivisionError)
      else
        let '(net'', evs, r) := pass epoch n net' losses' rest in
        (net'', update_events ++ batch_log epoch i n losses' ++ evs, r)
  end.

(** What a call of [train] reads and what it leaves. *)
Record Trained : Type := {
  tr_model : Model;
  tr_optimizer : Optimizer;
  tr_loader : Loader;
  tr_events : list Event;
  tr_result : outcome float
}.

Definition train_reads (epoch : Z) (m : Model) (o : Optimizer) (l : Loader)
    : Trained :=
  let '(batches, l') := iterate l in
  let '(net, evs, r) :=
    pass epoch (len l') (model_train m, o) AverageMeter.new (enumerate batches) in
  {| tr_model := net.1; tr_optimizer := net.2; tr_loader := l';
     tr_events := ModelTrain :: evs;
     tr_result := match r with
                  | Ret losses => Ret (AverageMeter.avg losses)
                  | Raise e => Raise e
                  end |}.

(** The state [s] with a new model, optimizer and loader and with the
    events [evs] added. *)
Definition after (s : State) (m : Model) (o : Optimizer) (l : Loader)
    (evs : list Event) : State :=
  {| model := m; optimizer := o; best_loss := best_loss s;
     epochs_since_improvement := epochs_since_improvement s;
     train_loader := l; files := files s; trace := trace s ++ evs |}.

(** The events of [s'] that [s] does not have yet. *)
Definition new_events (s s' : State) : list Event :=
  drop (length (trace s)) (trace s').

(** Two states with the same model, optimizer and loader. *)
Definition same_net (s1 s2 : State) : Prop :=
  model s1 = model s2 /\ optimizer s1 = optimizer s2 /\
  train_loader s1 = train_loader s2.

(** The events of an epoch after its training. *)
Definition epoch_events (epoch : Z) (lr train_loss sad_loss mse_loss : float)
    (is_best : bool) (stall : Z) (best : float) : list Event :=
  [PrintLr lr; AddScalar "model/train_loss" train_loss epoch; Test;
   AddScalar "model/sad_loss" sad_loss epoch;
   AddScalar "model/mse_loss" mse_loss epoch;
   LoggerInfoTest sad_loss mse_loss]
  ++ (if is_best then [] else [PrintStall stall])
  ++ [SaveCheckpoint epoch stall best is_best].

(** The state at the end of an epoch that started in [s], whose training
    left [t] and returned [train_loss]. It is related to the code by the
    lemma [epoch_body_eq]. *)
Definition checkpointed (epoch : Z) (s : State) (t : Trained)
    (train_loss : float) : State :=
  let scores := test (tr_model t) in
  let is_best := ltb scores.2 (best_loss s) in
  let best := min scores.2 (best_loss s) in
  let stall := if is_best then 0 else epochs_since_improvement s + 1 in
  let ck := {| ck_epoch := epoch; ck_epochs_since_improvement := stall;
               ck_loss := best; ck_model := tr_model t;
               ck_optimizer := tr_optimizer t |} in
  {| model := tr_model t; optimizer := tr_optimizer t; best_loss := best;
     epochs_since_improvement := stall; train_loader := tr_loader t;
     files := if is_best then <["best" := ck]> (<["latest" := ck]> (files s))
              else <["latest" := ck]> (files s);
     trace := trace s ++ tr_events t
              ++ epoch_events epoch (get_learning_rate (tr_optimizer t))
                   train_loss scores.1 scores.2 is_best stall best |}.

(** *** Reading a run *)

(** The start epoch, the stall counter and the best loss the loop starts
    with. *)
Definition initial_bookkeeping (r : outcome (Z * State))
    : option (Z * Z * float) :=
  match r with
  | Ret (start_epoch, s) =>
      Some (start_epoch, epochs_since_improvement s, best_loss s)
  | Raise _ => None
  end.

Definition run_trace (r : Run) : list Event :=
  match r with
  | LoadFailed _ => []
  | Ran _ s _ => trace s
  end.

Definition run_files (fs : gmap string Checkpoint) (r : Run)
    : gmap string Checkpoint :=
  match r with
  | LoadFailed _ => fs
  | Ran _ s _ => files s
  end.

(** Two runs that went through the same epochs and ended alike, with the
    same model, optimizer and loader. *)
Definition same_training (r1 r2 : Run) : Prop :=
  match r1, r2 with
  | LoadFailed e1, LoadFailed e2 => e1 = e2
  | Ran a1 s1 o1, Ran a2 s2 o2 => a1 = a2 /\ same_net s1 s2 /\ o1 = o2
  | _, _ => False
  end.

End TrainPy.

(** *** Reading a trace *)

(** The epochs at which [save_checkpoint] was called, in order. *)
Definition saved_epochs (tr : list Event) : list Z :=
  omap (fun e => match e with SaveCheckpoint epoch _ _ _ => Some epoch | _ => None end) tr.

(** The best loss handed to [save_checkpoint] at each call, in order. *)
Definition saved_losses (tr : list Event) : list float :=
  omap (fun e => match e with SaveCheckpoint _ _ loss _ => Some loss | _ => None end) tr.

(** The MSE scores the evaluations returned, as logged after each call of
    [test], in order. *)
Definition evaluated_mse (tr : list Event) : list float :=
  omap (fun e => match e with LoggerInfoTest _ mse => Some mse | _ => None end) tr.

(** Each value is at most the one before it, the first at most [b]. *)
Fixpoint non_increasing_from (b : float) (xs : list float) : Prop :=
  match xs with
  | [] => True
  | x :: xs => leb x b = true /\ non_increasing_from x xs
  end.

Definition is_save (e : Event) : bool :=
  match e with SaveCheckpoint _ _ _ _ => true | _ => false end.

Definition is_test (e : Event) : bool :=
  match e with Test => true | _ => false end.

Definition is_model_call (e : Event) : bool :=
  match e with ModelCall => true | _ => false end.

(** The events of one batch that touch gradients or parameters. *)
Definition is_update_event (e : Event) : bool :=
  match e with
  | ZeroGrad | Backward | ClipGradient _ | OptimizerStep => true
  | _ => false
  end.

(** ** A small instance, to run the code on concrete inputs *)

Module Toy.

(** The model is the number of epochs of training its weights have seen,
    the optimizer is its gradient buffers, a batch is the loss it yields. *)
#[export] Instance torch : Torch := {|
  Model := Z;
  Optimizer := list (list float);
  Batch := float;
  Tensor := float;
  Loader := list float;
  DeepLab := 0;
  Adam := fun _ _ => [[zero; zero]];
  DataLoader := fun _ => [of_Z 2; of_Z 4; of_Z 6];
  iterate := fun l => (l, l);
  len := fun l => Z.of_nat (length l);
  model_train := Z.succ;
  model_call := fun m b => (m, b);
  alpha_prediction_loss := fun out _ => out;
  item := fun loss => loss;
  zero_grad := fun '(m, g) => (m, map (map (fun _ => zero)) g);
  backward := fun loss '(m, g) => (m, map (map (fun x => add x loss)) g);
  clip_gradient := fun '(m, g) bound => (m, GradientLimiter.clip g bound);
  step := fun net => net;
  get_learning_rate := fun _ => ratio 1 1000
|}.

#[export] Instance config : Config := {|
  grad_clip := of_Z 5;
  print_freq := 2
|}.

(** The evaluation that yields, after the [n]-th epoch of training, the
    [n]-th of a given list of MSE scores (and infinity past its end). *)
Definition test (scores : list float) (m : Z) : float * float :=
  (zero, nth (Z.to_nat (m - 1)) scores inf).

Definition args (ck : option string) (last : Z) : Args :=
  {| checkpoint := ck; lr := ratio 1 1000; batch_size := 32; end_epoch := last |}.

(** The state a fresh run starts from. *)
Definition state0 : State :=
  {| model := 0; optimizer := [[zero; zero]]; best_loss := inf;
     epochs_since_improvement := 0;
     train_loader := [of_Z 2; of_Z 4; of_Z 6]; files := ∅; trace := [] |}.

(** A run of this instance. *)
Definition run (scores : list float) (ck : option string) (last : Z)
    (fs : gmap string Checkpoint) : Run :=
  train_net (test scores) (args ck last) fs.

(** The calls of [save_checkpoint] of a run. *)
Definition saves (r : Run) : list Event := List.filter is_save (run_trace r).

(** The epoch, stall counter and best loss a checkpoint file holds. *)
Definition slot (fs : gmap string Checkpoint) (path : string)
    : option (Z * Z * float) :=
  (fun ck => (ck_epoch ck, ck_epochs_since_improvement ck, ck_loss ck))
    <$> fs !! path.

(** The state a run resumed from the checkpoint at [path] starts from. *)
Definition resumed_state (path : string) (last : Z)
    (fs : gmap string Checkpoint) : State :=
  match initialize (args (Some path) last) fs with
  | Ret (_, s) => s
  | Raise _ => state0
  end.

(** The files a fresh run of [n] epochs leaves. *)
Definition files_after (scores : list float) (n : Z) : gmap string Checkpoint :=
  run_files ∅ (run scores None n ∅).

End Toy.

(** ** [valid] *)

(** The calls [valid] makes, in program order. *)
Inductive ValidEvent : Type :=
| ModelEval                                   (* model.eval() *)
| ValidModelCall                              (* model(img) *)
| LoggerInfoValid (avg : float).              (* logger.info(status) *)

Section ValidPy.

Context `{T : Torch}.

(** [model.eval()], which [train.py] calls on the torch module. *)
Variable model_eval : Model -> Model.

(** What a call of [valid] leaves: the model and the loader after it, the
    calls it made and the value it returns. *)
Record Validated : Type := {
  v_model : Model;
  v_loader : Loader;
  v_events : list ValidEvent;
  v_result : float
}.

(** The loop over batches, lines 147-162; the model, the meter and the
    calls so far are handed on from batch to batch. *)
Fixpoint valid_batches (m : Model) (losses : AverageMeter.t)
    (evs : list ValidEvent) (batches : list Batch)
    : Model * AverageMeter.t * list ValidEvent :=
  match batches with
  | [] => (m, losses, evs)
  | batch :: rest =>
      (* Forward prop. *)
      let '(m', alpha_out) := model_call m batch in
      let evs := evs ++ [ValidModelCall] in
      (* Calculate loss *)
      let loss := alpha_prediction_loss alpha_out batch in
      (* Keep track of metrics *)
      let losses := AverageMeter.update losses (item loss) in
      valid_batches m' losses evs rest
  end.

Definition valid (valid_loader : Loader) (model : Model) : Validated :=
  let model := model_eval model in
  let evs := [ModelEval] in
  let losses := AverageMeter.new in
  let '(batches, l') := iterate valid_loader in
  let '(model, losses, evs) := valid_batches model losses evs batches in
  (* Print status *)
  let evs := evs ++ [LoggerInfoValid (AverageMeter.avg losses)] in
  {| v_model := model; v_loader := l'; v_events := evs;
     v_result := AverageMeter.avg losses |}.

(** The loss values of a list of batches when only the forward pass runs. *)
Fixpoint forward_losses (m : Model) (batches : list Batch) : list float :=
  match batches with
  | [] => []
  | batch :: rest =>
      let '(m', alpha_out) := model_call m batch in
      item (alpha_prediction_loss alpha_out batch) :: forward_losses m' rest
  end.

End ValidPy.

(** ** More readings of traces, states and runs *)

(** The events a batch of [train] can leave. *)
Definition is_batch_event (e : Event) : bool :=
  match e with
  | ModelCall | ZeroGrad | Backward | ClipGradient _ | OptimizerStep
  | LoggerInfoBatch _ _ _ _ _ => true
  | _ => false
  end.

Definition is_model_train (e : Event) : bool :=
  match e with ModelTrain => true | _ => false end.

(** The progress records of a trace: epoch, batch index, last loss and
    running average. *)
Definition progress_records (tr : list Event) : list (Z * Z * float * float) :=
  omap (fun e => match e with
                 | LoggerInfoBatch epoch i _ val avg => Some (epoch, i, val, avg)
                 | _ => None
                 end) tr.

(** The arguments of the calls of [save_checkpoint] of a trace: epoch,
    stall counter, best loss and [is_best]. *)
Definition save_records (tr : list Event) : list (Z * Z * float * bool) :=
  omap (fun e => match e with
                 | SaveCheckpoint epoch stall loss is_best =>
                     Some (epoch, stall, loss, is_best)
                 | _ => None
                 end) tr.

(** The scalars written to the TensorBoard writer. *)
Definition scalars (tr : list Event) : list (string * float * Z) :=
  omap (fun e => match e with
                 | AddScalar tag value step => Some (tag, value, step)
                 | _ => None
                 end) tr.

(** The saved records follow the epochs of the loop, one record per epoch
    from the first on, and each stall counter is 0 when the record is
    flagged best and one more than the stall counter before it otherwise. *)
Fixpoint stall_chain (stall : Z) (epochs : list Z)
    (records : list (Z * Z * float * bool)) : Prop :=
  match records with
  | [] => True
  | (epoch, n, _, is_best) :: records =>
      match epochs with
      | [] => False
      | e :: epochs =>
          epoch = e /\ n = (if is_best : bool then 0 else stall + 1)
          /\ stall_chain n epochs records
      end
  end.

(** The meters after each of a list of updates of a meter. *)
Fixpoint running (m : AverageMeter.t) (xs : list float) : list AverageMeter.t :=
  match xs with
  | [] => []
  | x :: xs => AverageMeter.update m x :: running (AverageMeter.update m x) xs
  end.

Section MoreReadings.

Context `{T : Torch}.

(** Two states that differ in their files at most. *)
Definition same_but_files (s1 s2 : State) : Prop :=
  model s1 = model s2 /\ optimizer s1 = optimizer s2
  /\ best_loss s1 = best_loss s2
  /\ epochs_since_improvement s1 = epochs_since_improvement s2
  /\ train_loader s1 = train_loader s2 /\ trace s1 = trace s2.

(** Two runs that differ in the files they leave at most. *)
Definition same_run_but_files (r1 r2 : Run) : Prop :=
  match r1, r2 with
  | LoadFailed e1, LoadFailed e2 => e1 = e2
  | Ran a1 s1 o1, Ran a2 s2 o2 => a1 = a2 /\ same_but_files s1 s2 /\ o1 = o2
  | _, _ => False
  end.

(** The checkpoint [ck] with another saved loss. *)
Definition with_loss (ck : Checkpoint) (loss : float) : Checkpoint :=
  {| ck_epoch := ck_epoch ck;
     ck_epochs_since_improvement := ck_epochs_since_improvement ck;
     ck_loss := loss; ck_model := ck_model ck;
     ck_optimizer := ck_optimizer ck |}.

(** What the state [s] would be saved as at [epoch]. *)
Definition snapshot (epoch : Z) (s : State) : Checkpoint :=
  {| ck_epoch := epoch;
     ck_epochs_since_improvement := epochs_since_improvement s;
     ck_loss := best_loss s; ck_model := model s;
     ck_optimizer := optimizer s |}.

(** The arguments [args] with another checkpoint path and end epoch. *)
Definition resume_args (args : Args) (path : string) (last : Z) : Args :=
  {| checkpoint := Some path; lr := lr args; batch_size := batch_size args;
     end_epoch := last |}.

End MoreReadings.

(** ** More small instances *)

Module ToyEdge.

Import Toy.

(** The constants of [Toy.config] but for a zero [print_freq]. *)
Definition config0 : Config := {| grad_clip := of_Z 5; print_freq := 0 |}.

(** A state whose loader yields no batch. *)
Definition state_empty : State :=
  {| model := 0; optimizer := [[zero; zero]]; best_loss := inf;
     epochs_since_improvement := 0;
     train_loader := []; files := ∅; trace := [] |}.

(** A state whose best loss is NaN. *)
Definition state_nan : State :=
  {| model := 0; optimizer := [[zero; zero]]; best_loss := nan;
     epochs_since_improvement := 0;
     train_loader := [of_Z 2; of_Z 4; of_Z 6]; files := ∅; trace := [] |}.

(** A state whose best loss is 0.05 and whose stall counter is 1. *)
Definition state_stalled : State :=
  {| model := 0; optimizer := [[zero; zero]]; best_loss := ratio 5 100;
     epochs_since_improvement := 1;
     train_loader := [of_Z 2; of_Z 4; of_Z 6]; files := ∅; trace := [] |}.

(** [model.eval()] of the instance: the weights stay as they are. *)
Definition model_eval (m : Z) : Z := m.

(** A checkpoint saved at epoch 2 with stall counter 2 and best loss 0.04,
    and the files that hold it as the latest one. *)
Definition ck0 : Checkpoint :=
  {| ck_epoch := 2; ck_epochs_since_improvement := 2; ck_loss := ratio 4 100;
     ck_model := 3; ck_optimizer := [[zero; zero]] |}.

Definition files0 : gmap string Checkpoint := {[ "latest"%string := ck0 ]}.

(** A run of the instance with a zero [print_freq]. *)
Definition run0 (scores : list float) (ck : option string) (last : Z)
    (fs : gmap string Checkpoint) : Run :=
  train_net (C := config0) (test scores) (args ck last) fs.

End ToyEdge.

(** * Part II: theorems *)

(** ** The order on floats *)

Module PyFloatFacts.

Import SpecFloat.

Lemma compare_antisym (x y : float) :
  SFcompare x y = CompOpp <$> SFcompare y x.
Proof.
  destruct x as [sx|sx| |sx mx ex], y as [sy|sy| |sy my ey]; simpl;
    try reflexivity;
    try (destruct sx; reflexivity);
    try (destruct sy; reflexivity);
    try (destruct sx, sy; reflexivity).
  destruct sx, sy; simpl; try reflexivity;
    rewrite (Z.compare_antisym ex ey);
    destruct (ex ?= ey)%Z; simpl; try reflexivity;
    rewrite (Pos.compare_cont_antisym my mx Eq); simpl;
    try rewrite CompOpp_involutive; reflexivity.
Qed.

Lemma compare_total (x y : float) :
  is_nan x = false -> is_nan y = false -> is_Some (SFcompare x y).
Proof.
  destruct x, y; simpl; intros; try discriminate; eauto.
Qed.

Lemma compare_refl (x : float) :
  is_nan x = false -> SFcompare x x = Some Eq.
Proof.
  destruct x as [s|s| |s m e]; simpl; intros H; try discriminate;
    try (destruct s; reflexivity).
  destruct s; rewrite Z.compare_refl, Pos.compare_cont_refl; reflexivity.
Qed.

Lemma leb_refl (x : float) : is_nan x = false -> leb x x = true.
Proof. intros H. unfold leb, SFleb. rewrite compare_refl; auto. Qed.

(** A float is never strictly below itself, NaN included. *)
Lemma ltb_irrefl (x : float) : ltb x x = false.
Proof.
  destruct (is_nan x) eqn:E.
  - destruct x; try discriminate; reflexivity.
  - unfold ltb, SFltb. rewrite compare_refl; auto.
Qed.


(** On floats that are not NaN, [not (y < x)] is [x <= y]. *)
Lemma not_ltb_leb (x y : float) :
  is_nan x = false -> is_nan y = false -> ltb y x = false -> leb x y = true.
Proof.
  intros Hx Hy. unfold ltb, leb, SFltb, SFleb.
  rewrite (compare_antisym x y).
  destruct (compare_total y x Hy Hx) as [c ->]. destruct c; simpl; congruence.
Qed.


Lemma ltb_leb (x y : float) : ltb x y = true -> leb x y = true.
Proof.
  unfold ltb, leb, SFltb, SFleb.
  destruct (SFcompare x y) as [[]|]; congruence.
Qed.

Lemma ltb_not_nan (x y : float) :
  ltb x y = true -> is_nan x = false /\ is_nan y = false.
Proof. destruct x, y; simpl; intros; try discriminate; auto. Qed.

Lemma leb_inf (x : float) : is_nan x = false -> leb x inf = true.
Proof.
  destruct x as [s|[]| |s m e]; try destruct s; intros H;
    try reflexivity; discriminate H.
Qed.

Lemma min_not_nan (a b : float) :
  is_nan a = false -> is_nan b = false -> is_nan (min a b) = false.
Proof. unfold min. destruct (ltb b a); auto. Qed.

(** [min a b] is at most its second argument when neither is NaN. *)
Lemma min_leb_r (a b : float) :
  is_nan a = false -> is_nan b = false -> leb (min a b) b = true.
Proof.
  intros Ha Hb. unfold min. destruct (ltb b a) eqn:E.
  - apply leb_refl; assumption.
  - apply not_ltb_leb; assumption.
Qed.

(** With a NaN first argument, [min] returns the NaN. *)
Lemma min_nan_l (b : float) : min nan b = nan.
Proof. unfold min. destruct b; reflexivity. Qed.

(** With a NaN second argument, [min] returns the first argument. *)
Lemma min_nan_r (a : float) : min a nan = a.
Proof. unfold min. destruct a; reflexivity. Qed.

(** A value within the bound is neither above it nor below its opposite. *)
Lemma abs_leb_bounds (bound g : float) :
  leb (abs g) bound = true ->
  ltb g (opp bound) = false /\ ltb bound g = false.
Proof.
  unfold leb, ltb, abs, opp, SFleb, SFltb.
  destruct g as [sg|sg| |sg mg eg], bound as [sb|sb| |sb mb eb]; simpl;
    try (intros; discriminate);
    try (destruct sg, sb; simpl; intros; (discriminate || (split; reflexivity))).
  destruct sg, sb; simpl; try (intros; discriminate);
    try (split; reflexivity);
    try rewrite (Z.compare_antisym eg eb);
    try rewrite (Pos.compare_antisym mg mb : Pos.compare_cont Eq mb mg = _);
    unfold Pos.compare;
    destruct (eg ?= eb)%Z; simpl; try (intros; discriminate);
    try (split; reflexivity);
    destruct (Pos.compare_cont Eq mg mb); simpl; intros;
    try discriminate; split; reflexivity.
Qed.

End PyFloatFacts.

(** ** The gradient limiter *)

Module GradientLimiterFacts.

Import SpecFloat GradientLimiter.

Lemma clamp_unchanged (bound g : float) :
  leb (abs g) bound = true -> clamp bound g = g.
Proof.
  intros H. destruct (PyFloatFacts.abs_leb_bounds bound g H) as [Hlo Hhi].
  unfold clamp. rewrite Hlo, Hhi. reflexivity.
Qed.

(** Conversely, a value that is not NaN and is neither above the bound nor
    below its opposite has magnitude at most the bound. *)
Lemma bounds_abs_leb (bound g : float) :
  is_nan g = false -> is_nan bound = false ->
  ltb g (opp bound) = false -> ltb bound g = false ->
  leb (abs g) bound = true.
Proof.
  unfold leb, ltb, abs, opp, SFleb, SFltb.
  destruct g as [sg|sg| |sg mg eg], bound as [sb|sb| |sb mb eb]; simpl;
    try (intros; discriminate);
    try (destruct sg, sb; simpl; intros; (discriminate || reflexivity)).
  destruct sg, sb; simpl; try (intros; discriminate);
    try rewrite (Z.compare_antisym eg eb);
    try rewrite (Pos.compare_antisym mg mb : Pos.compare_cont Eq mb mg = _);
    unfold Pos.compare;
    destruct (eg ?= eb)%Z; simpl; try (intros; discriminate);
    try (intros; reflexivity);
    destruct (Pos.compare_cont Eq mg mb); simpl; intros;
    try discriminate; reflexivity.
Qed.

Lemma abs_opp (x : float) : abs (opp x) = abs x.
Proof. destruct x; reflexivity. Qed.

Lemma abs_nonneg_leb (x : float) : leb zero x = true -> leb (abs x) x = true.
Proof.
  destruct x as [s|s| |s m e]; try destruct s; simpl; intros H;
    try discriminate; try reflexivity.
  apply (PyFloatFacts.leb_refl (S754_finite false m e)). reflexivity.
Qed.

(** The clamp of a value that is not NaN, against a bound that is not
    negative, has magnitude at most the bound. *)
Lemma clamp_within_bound (bound g : float) :
  is_nan g = false -> leb zero bound = true ->
  leb (abs (clamp bound g)) bound = true.
Proof.
  intros Hg Hb. unfold clamp.
  destruct (ltb g (opp bound)) eqn:Hlo.
  - rewrite abs_opp. apply abs_nonneg_leb, Hb.
  - destruct (ltb bound g) eqn:Hhi.
    + apply abs_nonneg_leb, Hb.
    + apply bounds_abs_leb; auto.
      destruct bound; try reflexivity; discriminate.
Qed.

Lemma clip_lookup (grads : list (list float)) (bound : float) (i j : nat) :
  (clip grads bound !! i) ≫= (fun buf => buf !! j)
  = clamp bound <$> ((grads !! i) ≫= (fun buf => buf !! j)).
Proof.
  unfold clip. rewrite list_lookup_fmap.
  destruct (grads !! i) as [buf|]; simpl; [|reflexivity].
  apply list_lookup_fmap.
Qed.

Lemma clip_unchanged (grads : list (list float)) (bound : float) :
  Forall (Forall (fun g => leb (abs g) bound = true)) grads ->
  clip grads bound = grads.
Proof.
  unfold clip. induction 1 as [|buf grads Hbuf _ IH]; simpl; [reflexivity|].
  f_equal; [|exact IH].
  induction Hbuf as [|g buf Hg _ IHb]; simpl; [reflexivity|].
  rewrite (clamp_unchanged _ _ Hg). f_equal. exact IHb.
Qed.

End GradientLimiterFacts.

(** C7. The gradient limiter clamps each gradient value on its own against
    the fixed bound: with bound 1.0 the value 3.0 becomes 1.0, whose
    magnitude is at most 1.0; a value whose magnitude is within the bound is
    left as it is, and so is a whole set of buffers of such values; the
    value at any position of the result is the clamp of the value at that
    position, whatever the other values are; and the clamp of any value
    that is not NaN, against a bound that is not negative, has magnitude at
    most the bound. *)
Theorem clip_gradient_clamps_each_value :
  GradientLimiter.clip [[of_Z 3]] (of_Z 1) = [[of_Z 1]]
  /\ leb (abs (of_Z 1)) (of_Z 1) = true
  /\ (forall bound g : float,
        leb (abs g) bound = true -> GradientLimiter.clamp bound g = g)
  /\ (forall (bound : float) (grads : list (list float)),
        Forall (Forall (fun g => leb (abs g) bound = true)) grads ->
        GradientLimiter.clip grads bound = grads)
  /\ (forall (bound : float) (grads : list (list float)) (i j : nat),
        (GradientLimiter.clip grads bound !! i) ≫= (fun buf => buf !! j)
        = GradientLimiter.clamp bound <$> ((grads !! i) ≫= (fun buf => buf !! j)))
  /\ (forall bound g : float,
        is_nan g = false -> leb zero bound = true ->
        leb (abs (GradientLimiter.clamp bound g)) bound = true).
Proof.
  split; [vm_compute; reflexivity|].
  split; [vm_compute; reflexivity|].
  split; [exact GradientLimiterFacts.clamp_unchanged|].
  split; [|split].
  - intros bound grads. apply GradientLimiterFacts.clip_unchanged.
  - intros bound grads i j. apply GradientLimiterFacts.clip_lookup.
  - exact GradientLimiterFacts.clamp_within_bound.
Qed.

(** The bound 1.0 leaves the value 0.5 and the buffers [[0.5; -1.0]] as
    they are. *)
Lemma clip_gradient_clamps_each_value_witness :
  leb (abs (ratio 1 2)) (of_Z 1) = true
  /\ GradientLimiter.clamp (of_Z 1) (ratio 1 2) = ratio 1 2
  /\ GradientLimiter.clip [[ratio 1 2; of_Z (-1)]] (of_Z 1)
     = [[ratio 1 2; of_Z (-1)]].
Proof.
  split; [vm_compute; reflexivity|]. split.
  - apply (proj1 (proj2 (proj2 clip_gradient_clamps_each_value))).
    vm_compute; reflexivity.
  - apply (proj1 (proj2 (proj2 (proj2 clip_gradient_clamps_each_value)))).
    repeat constructor.
Defined.

(** ** The running mean *)

Module AverageMeterFacts.

Import AverageMeter.

Lemma reset_new (m : t) : reset m = new.
Proof. reflexivity. Qed.

Lemma sum_fold_update (xs : list float) (m : t) :
  sum (fold_left update xs m) = fold_left add xs (sum m).
Proof.
  revert m. induction xs as [|x xs IH]; intros m; simpl; [reflexivity|].
  rewrite IH. reflexivity.
Qed.

Lemma count_fold_update (xs : list float) (m : t) :
  count (fold_left update xs m) = count m + Z.of_nat (length xs).
Proof.
  revert m. induction xs as [|x xs IH]; intros m; simpl length; simpl fold_left.
  - lia.
  - rewrite IH. simpl. lia.
Qed.

(** After at least one update the average is the sum over the count. *)
Lemma avg_fold_update (xs : list float) (m : t) :
  xs <> [] ->
  avg (fold_left update xs m)
  = div (fold_left add xs (sum m)) (of_Z (count m + Z.of_nat (length xs))).
Proof.
  destruct xs as [|y ys _] using rev_ind; [congruence|]. intros _.
  rewrite !fold_left_app. simpl.
  rewrite sum_fold_update, count_fold_update, length_app. simpl.
  do 2 f_equal. lia.
Qed.

Lemma avg_mean (xs : list float) (m : t) :
  xs <> [] -> avg (fold_left update xs (reset m)) = mean xs.
Proof. intros H. rewrite (avg_fold_update xs _ H). reflexivity. Qed.

End AverageMeterFacts.

(** ** One pass over the batches *)

Section TrainFacts.

Context `{T : Torch} `{C : Config}.

Lemma after_nil (s : State) :
  after s (model s) (optimizer s) (train_loader s) [] = s.
Proof. destruct s. unfold after. simpl. rewrite app_nil_r. reflexivity. Qed.

Lemma after_after (s : State) m o l evs m' o' l' evs' :
  after (after s m o l evs) m' o' l' evs' = after s m' o' l' (evs ++ evs').
Proof. unfold after. simpl. rewrite app_assoc. reflexivity. Qed.

Lemma new_events_after (s : State) m o l evs :
  new_events s (after s m o l evs) = evs.
Proof. unfold new_events, after. simpl. apply drop_app_length. Qed.

(** The code of one batch, as an equation. *)
Lemma train_batch_eq (epoch : Z) (losses : AverageMeter.t) (i : Z)
    (batch : Batch) (s : State) :
  train_batch epoch losses i batch s =
  let net' := (batch_update (model s, optimizer s) batch).1 in
  let losses' :=
    AverageMeter.update losses (batch_update (model s, optimizer s) batch).2 in
  if print_freq =? 0
  then (after s net'.1 net'.2 (train_loader s) update_events,
        Raise ZeroDivisionError)
  else (after s net'.1 net'.2 (train_loader s)
          (update_events ++ batch_log epoch i (len (train_loader s)) losses'),
        Ret losses').
Proof.
  destruct s as [m o b n l fs tr].
  cbv beta iota zeta delta
    [train_batch batch_update after py_mod bind gets emit on_net modify ret raise
     model optimizer best_loss epochs_since_improvement train_loader files trace
     fst snd].
  destruct (model_call m batch) as [m' alpha_out].
  destruct (zero_grad (m', o)) as [m1 o1].
  destruct (backward (alpha_prediction_loss alpha_out batch) (m1, o1))
    as [m2 o2].
  destruct (clip_gradient (m2, o2) grad_clip) as [m3 o3].
  destruct (step (m3, o3)) as [m4 o4].
  destruct (print_freq =? 0).
  - rewrite <- !app_assoc. reflexivity.
  - unfold batch_log. destruct (i mod print_freq =? 0);
      rewrite <- !app_assoc; cbn [app]; rewrite ?app_nil_r; reflexivity.
Qed.

(** The loop over batches does what [pass] computes from the model, the
    optimizer and the length of the loader. *)
Lemma train_batches_pass (epoch : Z) (batches : list (Z * Batch))
    (losses : AverageMeter.t) (s : State) :
  train_batches epoch losses batches s =
  let p := pass epoch (len (train_loader s)) (model s, optimizer s) losses batches in
  (after s p.1.1.1 p.1.1.2 (train_loader s) p.1.2, p.2).
Proof.
  revert losses s. induction batches as [|[i batch] rest IH]; intros losses s.
  - simpl. unfold ret. rewrite after_nil. reflexivity.
  - cbn [train_batches pass]. unfold bind at 1. rewrite train_batch_eq. cbv zeta.
    destruct (batch_update (model s, optimizer s) batch) as [net' v] eqn:E.
    simpl fst; simpl snd.
    destruct (print_freq =? 0) eqn:Hp; [reflexivity|].
    rewrite IH. cbv zeta. cbn [after model optimizer train_loader].
    destruct net' as [m' o']. cbn [fst snd].
    destruct (pass epoch (len (train_loader s)) (m', o')
                (AverageMeter.update losses v) rest) as [[net'' evs] r].
    cbn [fst snd]. rewrite after_after, <- app_assoc. reflexivity.
Qed.

(** [train] does what [train_reads] computes from the model, the optimizer
    and the loader; the rest of the state is left alone. *)
Lemma train_eq (epoch : Z) (s : State) :
  train epoch s =
  let t := train_reads epoch (model s) (optimizer s) (train_loader s) in
  (after s (tr_model t) (tr_optimizer t) (tr_loader t) (tr_events t),
   tr_result t).
Proof.
  unfold train, train_reads. cbv zeta.
  unfold bind at 1. unfold emit at 1, modify at 1.
  unfold bind at 1. unfold on_net at 1, modify at 1.
  unfold bind at 1. unfold gets at 1. cbn [train_loader model optimizer].
  destruct (iterate (train_loader s)) as [batches l'].
  unfold bind at 1. unfold set_train_loader at 1, modify at 1.
  unfold bind at 1. rewrite train_batches_pass. cbv zeta.
  cbn [train_loader model optimizer].
  destruct (pass epoch (len l') (model_train (model s), optimizer s)
              AverageMeter.new (enumerate batches)) as [[[m o] evs] r].
  destruct s as [m0 o0 b n l fs tr].
  unfold after, ret; simpl. destruct r; simpl; rewrite <- app_assoc; reflexivity.
Qed.

(** *** What a pass leaves in the trace *)

Lemma update_events_filter :
  List.filter is_update_event update_events =
  [ZeroGrad; Backward; ClipGradient grad_clip; OptimizerStep].
Proof. reflexivity. Qed.

Lemma batch_log_no_update (epoch i n : Z) (losses : AverageMeter.t) :
  List.filter is_update_event (batch_log epoch i n losses) = [].
Proof. unfold batch_log. destruct (_ =? _); reflexivity. Qed.

(** When [print_freq] is not zero a pass goes through all its batches: it
    returns the meter fed with their losses, and its update events are the
    four of one batch, once per batch. *)
Lemma pass_complete (epoch n : Z) (batches : list (Z * Batch))
    (net : Model * Optimizer) (losses : AverageMeter.t) :
  print_freq <> 0 ->
  let p := pass epoch n net losses batches in
  p.2 = Ret (fold_left AverageMeter.update (batch_losses net batches.*2) losses)
  /\ List.filter is_update_event p.1.2 =
     mjoin (replicate (length batches)
              [ZeroGrad; Backward; ClipGradient grad_clip; OptimizerStep]).
Proof.
  intros Hp. apply Z.eqb_neq in Hp.
  revert net losses. induction batches as [|[i batch] rest IH]; intros net losses.
  - simpl. auto.
  - cbn [pass batch_losses fmap list_fmap snd length replicate mjoin list_join].
    destruct (batch_update net batch) as [net' v]. rewrite Hp.
    specialize (IH net' (AverageMeter.update losses v)). cbv zeta in IH.
    destruct (pass epoch n net' (AverageMeter.update losses v) rest)
      as [[net'' evs] r].
    simpl in *. destruct IH as [-> IH]. split; [reflexivity|].
    rewrite List.filter_app, batch_log_no_update. simpl. rewrite IH. reflexivity.
Qed.

(** A pass never saves a checkpoint and never calls [test]. *)
Lemma pass_events (epoch n : Z) (batches : list (Z * Batch))
    (net : Model * Optimizer) (losses : AverageMeter.t) :
  Forall (fun e => is_save e = false /\ is_test e = false)
    (pass epoch n net losses batches).1.2.
Proof.
  revert net losses. induction batches as [|[i batch] rest IH]; intros net losses.
  - constructor.
  - cbn [pass]. destruct (batch_update net batch) as [net' v].
    destruct (print_freq =? 0).
    + simpl. repeat constructor.
    + specialize (IH net' (AverageMeter.update losses v)).
      destruct (pass epoch n net' (AverageMeter.update losses v) rest)
        as [[net'' evs] r]. simpl in *.
      repeat (constructor; [split; reflexivity|]).
      apply Forall_app. split; [|exact IH].
      unfold batch_log. destruct (_ =? _); repeat constructor.
Qed.

(** The only exception of a pass is the [ZeroDivisionError] of
    [i % print_freq]. *)
Lemma pass_result (epoch n : Z) (batches : list (Z * Batch))
    (net : Model * Optimizer) (losses : AverageMeter.t) :
  match (pass epoch n net losses batches).2 with
  | Ret _ => True
  | Raise e => e = ZeroDivisionError /\ print_freq = 0
  end.
Proof.
  revert net losses. induction batches as [|[i batch] rest IH]; intros net losses.
  - exact I.
  - cbn [pass]. destruct (batch_update net batch) as [net' v].
    destruct (print_freq =? 0) eqn:Hp.
    + simpl. split; [reflexivity|]. apply Z.eqb_eq, Hp.
    + specialize (IH net' (AverageMeter.update losses v)).
      destruct (pass epoch n net' (AverageMeter.update losses v) rest)
        as [[net'' evs] r]. exact IH.
Qed.


Lemma enumerate_snd {A} (xs : list A) : (enumerate xs).*2 = xs.
Proof. unfold enumerate. apply snd_zip. rewrite length_seqZ. lia. Qed.

Lemma enumerate_length {A} (xs : list A) : length (enumerate xs) = length xs.
Proof.
  rewrite <- (enumerate_snd xs) at 2. rewrite length_fmap. reflexivity.
Qed.

(** The update events of a whole call of [train]: the four of one batch,
    in the same order, once per batch. *)
Lemma train_update_events (epoch : Z) (s : State) :
  print_freq <> 0 ->
  List.filter is_update_event (new_events s (train epoch s).1) =
  mjoin (replicate (length (iterate (train_loader s)).1)
           [ZeroGrad; Backward; ClipGradient grad_clip; OptimizerStep]).
Proof.
  intros Hp. rewrite train_eq. cbv zeta. cbn [fst]. rewrite new_events_after.
  unfold train_reads. destruct (iterate (train_loader s)) as [batches l'].
  pose proof (pass_complete epoch (len l') (enumerate batches)
                (model_train (model s), optimizer s) AverageMeter.new Hp) as H.
  cbv zeta in H.
  destruct (pass epoch (len l') (model_train (model s), optimizer s)
              AverageMeter.new (enumerate batches)) as [[net evs] r].
  simpl in *. destruct H as [_ H]. rewrite H, enumerate_length. reflexivity.
Qed.

(** What [train] returns when [print_freq] is not zero. *)
Lemma train_result (epoch : Z) (s : State) :
  print_freq <> 0 ->
  (train epoch s).2 =
  Ret (AverageMeter.avg
         (fold_left AverageMeter.update
            (batch_losses (model_train (model s), optimizer s)
               (iterate (train_loader s)).1)
            AverageMeter.new)).
Proof.
  intros Hp. rewrite train_eq. cbv zeta. cbn [snd].
  unfold train_reads. destruct (iterate (train_loader s)) as [batches l'].
  pose proof (pass_complete epoch (len l') (enumerate batches)
                (model_train (model s), optimizer s) AverageMeter.new Hp) as H.
  cbv zeta in H. rewrite enumerate_snd in H.
  destruct (pass epoch (len l') (model_train (model s), optimizer s)
              AverageMeter.new (enumerate batches)) as [[net evs] r].
  simpl in *. destruct H as [-> _]. reflexivity.
Qed.

End TrainFacts.

(** *** The batches a pass goes through *)

Section PassProcessed.

Context `{T : Torch} `{C : Config}.

Lemma fold_left_eq {A B} (f g : A -> B -> A) (l : list B) (a : A) :
  (forall x y, f x y = g x y) -> fold_left f l a = fold_left g l a.
Proof.
  intros H. revert a. induction l as [|y l IH]; intros a; [reflexivity|].
  cbn. rewrite H. apply IH.
Qed.

(** The model and the optimizer after one batch, spelled out. *)
Lemma batch_update_fst (net : Model * Optimizer) (batch : Batch) :
  (batch_update net batch).1 =
  step (clip_gradient
          (backward (alpha_prediction_loss (model_call net.1 batch).2 batch)
             (zero_grad ((model_call net.1 batch).1, net.2)))
          grad_clip).
Proof.
  unfold batch_update. destruct (model_call net.1 batch) as [m' alpha_out].
  reflexivity.
Qed.

(** A pass goes through all its batches, or through the first one only
    when [print_freq] is zero: the update events are the four of one batch
    once per batch gone through, and the model and optimizer are those
    after these batches, one after the other. *)
Lemma pass_processed (epoch n : Z) (batches : list (Z * Batch))
    (net : Model * Optimizer) (losses : AverageMeter.t) :
  let k := if print_freq =? 0 then Nat.min 1 (length batches)
           else length batches in
  (pass epoch n net losses batches).1.1 =
    fold_left (fun net batch => (batch_update net batch).1)
      (take k batches.*2) net
  /\ List.filter is_update_event (pass epoch n net losses batches).1.2 =
     mjoin (replicate k
              [ZeroGrad; Backward; ClipGradient grad_clip; OptimizerStep]).
Proof.
  cbv zeta. destruct (print_freq =? 0) eqn:Hp.
  - destruct batches as [|[i batch] rest]; [cbn; auto|].
    cbn [pass]. destruct (batch_update net batch) as [net' v] eqn:E.
    rewrite Hp. cbn. rewrite E. auto.
  - revert net losses. induction batches as [|[i batch] rest IH];
      intros net losses; [cbn; auto|].
    cbn [pass fmap list_fmap snd length take fold_left replicate mjoin list_join].
    destruct (batch_update net batch) as [net' v] eqn:E. rewrite Hp.
    specialize (IH net' (AverageMeter.update losses v)).
    destruct (pass epoch n net' (AverageMeter.update losses v) rest)
      as [[net'' evs] r]. cbn [fst snd] in *.
    destruct IH as [IH1 IH2]. split; [exact IH1|].
    rewrite !List.filter_app, batch_log_no_update, IH2. reflexivity.
Qed.

(** The same for a call of [train]. *)
Lemma train_processed (epoch : Z) (s : State) :
  let batches := (iterate (train_loader s)).1 in
  let k := if print_freq =? 0 then Nat.min 1 (length batches)
           else length batches in
  let s' := (train epoch s).1 in
  List.filter is_update_event (new_events s s') =
    mjoin (replicate k
             [ZeroGrad; Backward; ClipGradient grad_clip; OptimizerStep])
  /\ (model s', optimizer s') =
     fold_left (fun net batch => (batch_update net batch).1)
       (take k batches) (model_train (model s), optimizer s).
Proof.
  cbv zeta. rewrite train_eq. cbv zeta. cbn [fst]. rewrite new_events_after.
  cbn [after model optimizer].
  unfold train_reads. destruct (iterate (train_loader s)) as [batches l'].
  cbn [fst].
  pose proof (pass_processed epoch (len l') (enumerate batches)
                (model_train (model s), optimizer s) AverageMeter.new) as H.
  cbv zeta in H. rewrite enumerate_snd, enumerate_length in H.
  destruct (pass epoch (len l') (model_train (model s), optimizer s)
              AverageMeter.new (enumerate batches)) as [[[m o] evs] r].
  cbn [fst snd tr_model tr_optimizer tr_events] in *.
  destruct H as [H1 H2]. split; [|exact H1].
  cbn [List.filter is_update_event]. exact H2.
Qed.

End PassProcessed.

(** C6. For every training batch, whatever the state and the meter, the
    events that touch gradients or parameters are, in this order:
    [optimizer.zero_grad()], [loss.backward()], [clip_gradient] with the
    configured bound, [optimizer.step()]; and the model and optimizer after
    the batch are those the step makes of the clipped gradients of the
    backward pass on freshly cleared gradients. So the clipper runs after
    the backward pass and before the optimizer step. And a call of [train]
    does this for every batch of the pass, one after the other (for the
    first batch only when [print_freq] is zero, where the pass stops on
    [ZeroDivisionError]): its update events are these four, in this order,
    once per batch, and its model and optimizer are those that result from
    the batches in turn, starting from the model in training mode. *)
Theorem train_batch_update_order `{T : Torch} `{C : Config}
    (epoch : Z) (losses : AverageMeter.t) (i : Z) (batch : Batch) (s : State) :
  (let s' := (train_batch epoch losses i batch s).1 in
   let out := model_call (model s) batch in
   let loss := alpha_prediction_loss out.2 batch in
   List.filter is_update_event (new_events s s') =
     [ZeroGrad; Backward; ClipGradient grad_clip; OptimizerStep]
   /\ (model s', optimizer s') =
      step (clip_gradient (backward loss (zero_grad (out.1, optimizer s)))
              grad_clip))
  /\ (let batches := (iterate (train_loader s)).1 in
      let k := if print_freq =? 0 then Nat.min 1 (length batches)
               else length batches in
      let s' := (train epoch s).1 in
      List.filter is_update_event (new_events s s') =
        mjoin (replicate k
                 [ZeroGrad; Backward; ClipGradient grad_clip; OptimizerStep])
      /\ (model s', optimizer s') =
         fold_left
           (fun (net : Model * Optimizer) (batch : Batch) =>
              let out := model_call net.1 batch in
              let loss := alpha_prediction_loss out.2 batch in
              step (clip_gradient (backward loss (zero_grad (out.1, net.2)))
                      grad_clip))
           (take k batches) (model_train (model s), optimizer s)).
Proof.
  split.
  - cbv zeta. rewrite train_batch_eq. cbv zeta.
    unfold batch_update. cbn [fst snd].
    destruct (model_call (model s) batch) as [m' alpha_out]. cbn [fst snd].
    destruct (step _) as [m4 o4] eqn:E.
    destruct (print_freq =? 0); cbn [fst snd]; rewrite new_events_after;
      cbn [after model optimizer]; split; try reflexivity.
    rewrite List.filter_app, batch_log_no_update. reflexivity.
  - pose proof (train_processed epoch s) as H. cbv zeta in *.
    destruct H as [H1 H2]. split; [exact H1|].
    rewrite H2. apply fold_left_eq. intros net b. apply batch_update_fst.
Qed.

(** C8. The meter's average is the running mean of the values fed to it
    since the last reset: after the updates 2.0, 4.0, 6.0 it is 4.0; after a
    reset, whatever the meter held, and the update 5.0 it is 5.0; after a
    reset and at least one update it is the sum of the values over their
    number; and [train], when [print_freq] is not zero, returns the average
    of a fresh meter fed with the losses of the batches of the pass, which
    is their mean when the pass has at least one batch. *)
Theorem train_returns_running_mean `{T : Torch} `{C : Config} :
  AverageMeter.avg
    (fold_left AverageMeter.update [of_Z 2; of_Z 4; of_Z 6] AverageMeter.new)
  = of_Z 4
  /\ (forall m : AverageMeter.t,
        AverageMeter.avg (AverageMeter.update (AverageMeter.reset m) (of_Z 5))
        = of_Z 5)
  /\ (forall (xs : list float) (m : AverageMeter.t),
        xs <> [] ->
        AverageMeter.avg (fold_left AverageMeter.update xs (AverageMeter.reset m))
        = AverageMeter.mean xs)
  /\ (forall (epoch : Z) (s : State),
        print_freq <> 0 ->
        let xs := batch_losses (model_train (model s), optimizer s)
                    (iterate (train_loader s)).1 in
        (train epoch s).2 =
          Ret (AverageMeter.avg
                 (fold_left AverageMeter.update xs AverageMeter.new))
        /\ (xs <> [] -> (train epoch s).2 = Ret (AverageMeter.mean xs))).
Proof.
  split; [vm_compute; reflexivity|].
  split; [intros m; vm_compute; reflexivity|].
  split; [exact AverageMeterFacts.avg_mean|].
  intros epoch s Hp xs. pose proof (train_result epoch s Hp) as H.
  fold xs in H. split; [exact H|].
  intros Hxs. rewrite H. f_equal.
  apply (AverageMeterFacts.avg_mean xs AverageMeter.new Hxs).
Qed.

(** ** One epoch *)

Section EpochFacts.

Context `{T : Torch} `{C : Config}.
Variable test : Model -> float * float.

(** The evaluation reads the model and leaves one event; nothing else of
    the state changes. *)
Lemma call_test_eq (s : State) :
  call_test test s =
  (after s (model s) (optimizer s) (train_loader s) [Test], Ret (test (model s))).
Proof. reflexivity. Qed.

(** The code of one epoch, as an equation. *)
Lemma epoch_body_eq (epoch : Z) (s : State) :
  epoch_body test epoch s =
  let t := train_reads epoch (model s) (optimizer s) (train_loader s) in
  match tr_result t with
  | Raise e =>
      (after s (tr_model t) (tr_optimizer t) (tr_loader t) (tr_events t), Raise e)
  | Ret train_loss => (checkpointed test epoch s t train_loss, Ret tt)
  end.
Proof.
  unfold epoch_body. unfold bind at 1. rewrite train_eq. cbv zeta.
  destruct (train_reads epoch (model s) (optimizer s) (train_loader s))
    as [m o l evs [train_loss|e]]; cbn [tr_result tr_model tr_optimizer tr_loader tr_events];
    [|reflexivity].
  destruct s as [m0 o0 b n l0 fs tr].
  cbv beta iota zeta delta
    [checkpointed save_checkpoint call_test torch_save after
     bind gets emit set_best_loss set_epochs_since_improvement modify ret
     model optimizer best_loss epochs_since_improvement train_loader files trace
     tr_model tr_optimizer tr_loader tr_events fst snd].
  destruct (test m) as [sad_loss mse_loss].
  unfold epoch_events.
  destruct (ltb mse_loss b); cbn [negb];
    cbv beta iota zeta delta
      [bind gets emit set_epochs_since_improvement modify ret
       model optimizer best_loss epochs_since_improvement train_loader files trace];
    rewrite <- !app_assoc; reflexivity.
Qed.

End EpochFacts.

(** ** The loop over epochs *)

Section LoopFacts.

Context `{T : Torch} `{C : Config}.

Lemma saved_epochs_app (a b : list Event) :
  saved_epochs (a ++ b) = saved_epochs a ++ saved_epochs b.
Proof. apply omap_app. Qed.

Lemma saved_losses_app (a b : list Event) :
  saved_losses (a ++ b) = saved_losses a ++ saved_losses b.
Proof. apply omap_app. Qed.

Lemma no_save_saved (evs : list Event) :
  Forall (fun e => is_save e = false /\ is_test e = false) evs ->
  saved_epochs evs = [] /\ saved_losses evs = [] /\ List.filter is_save evs = [].
Proof.
  induction 1 as [|e evs [He _] _ (IH1 & IH2 & IH3)]; [auto|].
  destruct e; try discriminate He; simpl; auto.
Qed.

(** The events of a call of [train] hold no call of [save_checkpoint]. *)
Lemma train_reads_no_save (epoch : Z) (m : Model) (o : Optimizer) (l : Loader) :
  Forall (fun e => is_save e = false /\ is_test e = false)
    (tr_events (train_reads epoch m o l)).
Proof.
  unfold train_reads. destruct (iterate l) as [batches l'].
  pose proof (pass_events epoch (len l') (enumerate batches) (model_train m, o)
                AverageMeter.new) as H.
  destruct (pass _ _ _ _ _) as [[net evs] r]. simpl in *.
  constructor; [split; reflexivity|exact H].
Qed.

(** When [print_freq] is not zero, [train] returns. *)
Lemma train_reads_returns (epoch : Z) (m : Model) (o : Optimizer) (l : Loader) :
  print_freq <> 0 -> exists x, tr_result (train_reads epoch m o l) = Ret x.
Proof.
  intros Hp. unfold train_reads. destruct (iterate l) as [batches l'].
  pose proof (pass_complete epoch (len l') (enumerate batches)
                (model_train m, o) AverageMeter.new Hp) as H. cbv zeta in H.
  destruct (pass _ _ _ _ _) as [[net evs] r]. simpl in *.
  destruct H as [-> _]. eauto.
Qed.

(** The only exception of [train] is the [ZeroDivisionError] of a zero
    [print_freq]. *)
Lemma train_reads_raises (epoch : Z) (m : Model) (o : Optimizer) (l : Loader) e :
  tr_result (train_reads epoch m o l) = Raise e ->
  e = ZeroDivisionError /\ print_freq = 0.
Proof.
  unfold train_reads. destruct (iterate l) as [batches l'].
  pose proof (pass_result epoch (len l') (enumerate batches) (model_train m, o)
                AverageMeter.new) as H.
  destruct (pass _ _ _ _ _) as [[net evs] [x|e']]; simpl in *; intros E;
    inversion E; subst; exact H.
Qed.

Lemma train_inv (epoch : Z) (s s1 : State) (r : outcome float) :
  train epoch s = (s1, r) ->
  let t := train_reads epoch (model s) (optimizer s) (train_loader s) in
  tr_result t = r
  /\ s1 = after s (tr_model t) (tr_optimizer t) (tr_loader t) (tr_events t).
Proof. rewrite train_eq. cbv zeta. intros E. inversion E. auto. Qed.

Variable test : Model -> float * float.

Lemma for_cons {A} (x : A) (xs : list A) (body : A -> M unit) (s : State) :
  for_ (x :: xs) body s =
  match body x s with
  | (s', Ret _) => for_ xs body s'
  | (s', Raise e) => (s', Raise e)
  end.
Proof. reflexivity. Qed.

(** What an epoch adds to the trace, and the checkpoints it saves. *)
Lemma epoch_body_trace (epoch : Z) (s : State) :
  let s' := (epoch_body test epoch s).1 in
  exists evs, trace s' = trace s ++ evs
  /\ match (epoch_body test epoch s).2 with
     | Ret _ => saved_epochs evs = [epoch] /\ saved_losses evs = [best_loss s']
     | Raise e => saved_epochs evs = [] /\ saved_losses evs = []
                  /\ e = ZeroDivisionError /\ print_freq = 0
     end.
Proof.
  cbv zeta. rewrite epoch_body_eq. cbv zeta.
  pose proof (train_reads_no_save epoch (model s) (optimizer s) (train_loader s)) as Hns.
  apply no_save_saved in Hns. destruct Hns as (Hns1 & Hns2 & _).
  pose proof (train_reads_raises epoch (model s) (optimizer s) (train_loader s)) as Hr.
  destruct (train_reads epoch (model s) (optimizer s) (train_loader s))
    as [m o l evs [train_loss|e]];
    cbn [tr_result tr_model tr_optimizer tr_loader tr_events fst snd] in *.
  - eexists. split; [reflexivity|].
    cbn [tr_events tr_model tr_optimizer tr_loader].
    rewrite saved_epochs_app, saved_losses_app, Hns1, Hns2.
    unfold epoch_events. rewrite saved_epochs_app, saved_losses_app.
    rewrite saved_epochs_app, saved_losses_app. cbn [app].
    destruct (ltb (test m).2 (best_loss s)); split; reflexivity.
  - eexists. split; [reflexivity|]. destruct (Hr e eq_refl). auto.
Qed.

(** When [print_freq] is not zero every epoch of the loop runs to its end
    and saves one checkpoint. *)
Lemma for_epochs_complete (epochs : list Z) (s : State) :
  print_freq <> 0 ->
  let r := for_ epochs (epoch_body test) s in
  r.2 = Ret tt
  /\ saved_epochs (trace r.1) = saved_epochs (trace s) ++ epochs.
Proof.
  intros Hp. cbv zeta. revert s.
  induction epochs as [|epoch epochs IH]; intros s.
  - simpl. rewrite app_nil_r. auto.
  - rewrite for_cons.
    destruct (epoch_body_trace epoch s) as (evs & Htr & Hev). cbv zeta in Htr.
    destruct (epoch_body test epoch s) as [s1 [[]|e]]; cbn [fst snd] in *.
    + destruct (IH s1) as [H1 H2]. split; [exact H1|].
      rewrite H2, Htr, saved_epochs_app. destruct Hev as [-> _].
      rewrite <- app_assoc. reflexivity.
    + destruct Hev as (_ & _ & _ & H0). contradiction.
Qed.


(** The state at the end of an epoch whose training returned. *)
Lemma epoch_body_after_train (epoch : Z) (s s1 : State) (train_loss : float) :
  train epoch s = (s1, Ret train_loss) ->
  epoch_body test epoch s =
  (checkpointed test epoch s
     (train_reads epoch (model s) (optimizer s) (train_loader s)) train_loss,
   Ret tt)
  /\ model s1 = tr_model (train_reads epoch (model s) (optimizer s) (train_loader s))
  /\ optimizer s1 =
     tr_optimizer (train_reads epoch (model s) (optimizer s) (train_loader s))
  /\ trace s1 = trace s ++
     tr_events (train_reads epoch (model s) (optimizer s) (train_loader s)).
Proof.
  intros H. apply train_inv in H. cbv zeta in H. destruct H as [Hr ->].
  rewrite epoch_body_eq. cbv zeta. rewrite Hr. auto.
Qed.

(** The best loss after an epoch that ran to its end. *)
Lemma epoch_body_best_loss (epoch : Z) (s : State) :
  (epoch_body test epoch s).2 = Ret tt ->
  let s' := (epoch_body test epoch s).1 in
  best_loss s' = min (test (model s')).2 (best_loss s).
Proof.
  rewrite epoch_body_eq. cbv zeta.
  destruct (tr_result _); [reflexivity|discriminate].
Qed.

(** When the evaluation never yields a NaN score, the best loss saved by
    each epoch is at most the one before it. *)
Lemma for_epochs_non_increasing (epochs : list Z) (s : State) :
  (forall m, is_nan (test m).2 = false) ->
  is_nan (best_loss s) = false ->
  exists evs,
    trace (for_ epochs (epoch_body test) s).1 = trace s ++ evs
    /\ non_increasing_from (best_loss s) (saved_losses evs).
Proof.
  intros Htest. revert s. induction epochs as [|epoch epochs IH]; intros s Hs.
  - exists []. simpl. rewrite app_nil_r. auto.
  - rewrite for_cons.
    destruct (epoch_body_trace epoch s) as (evs & Htr & Hev). cbv zeta in Htr.
    pose proof (epoch_body_best_loss epoch s) as Hb. cbv zeta in Hb.
    destruct (epoch_body test epoch s) as [s1 [[]|e]]; cbn [fst snd] in *.
    + specialize (Hb eq_refl).
      assert (Hs1 : is_nan (best_loss s1) = false)
        by (rewrite Hb; apply PyFloatFacts.min_not_nan; auto).
      destruct (IH s1 Hs1) as (evs' & Htr' & Hni).
      exists (evs ++ evs'). split.
      * rewrite Htr', Htr, app_assoc. reflexivity.
      * rewrite saved_losses_app. destruct Hev as [_ ->]. simpl.
        split; [|exact Hni].
        rewrite Hb. apply PyFloatFacts.min_leb_r; auto.
    + exists evs. split; [exact Htr|].
      destruct Hev as (_ & -> & _). exact I.
Qed.

End LoopFacts.

(** ** What the evaluation can and cannot change *)

Section EvaluationFacts.

Context `{T : Torch} `{C : Config}.
Variables test1 test2 : Model -> float * float.

(** Whatever the evaluation returns, an epoch leaves the same model,
    optimizer and loader and ends the same way. *)
Lemma epoch_body_same_net (epoch : Z) (s1 s2 : State) :
  same_net s1 s2 ->
  same_net (epoch_body test1 epoch s1).1 (epoch_body test2 epoch s2).1
  /\ (epoch_body test1 epoch s1).2 = (epoch_body test2 epoch s2).2.
Proof.
  intros (Hm & Ho & Hl). rewrite !epoch_body_eq. cbv zeta.
  rewrite <- Hm, <- Ho, <- Hl.
  destruct (train_reads epoch (model s1) (optimizer s1) (train_loader s1))
    as [m o l evs [train_loss|e]]; simpl; unfold same_net; simpl; auto.
Qed.

Lemma for_epochs_same_net (epochs : list Z) (s1 s2 : State) :
  same_net s1 s2 ->
  same_net (for_ epochs (epoch_body test1) s1).1
           (for_ epochs (epoch_body test2) s2).1
  /\ (for_ epochs (epoch_body test1) s1).2 = (for_ epochs (epoch_body test2) s2).2.
Proof.
  revert s1 s2. induction epochs as [|epoch epochs IH]; intros s1 s2 H.
  - simpl. auto.
  - rewrite !for_cons.
    destruct (epoch_body_same_net epoch s1 s2 H) as [Hn Hr].
    destruct (epoch_body test1 epoch s1) as [s1' r1].
    destruct (epoch_body test2 epoch s2) as [s2' r2]. cbn [fst snd] in *.
    subst r2. destruct r1 as [[]|e]; [apply IH; exact Hn|]. simpl. auto.
Qed.

End EvaluationFacts.

(** ** The bookkeeping of an epoch *)



(** ** Whole runs *)

Section RunFacts.

Context `{T : Torch} `{C : Config}.

Lemma range_nil (a b : Z) : b <= a -> range a b = [].
Proof.
  intros H. unfold range, seqZ.
  replace (Z.to_nat (b - a)) with 0%nat by lia. reflexivity.
Qed.

Lemma elem_of_range (a b x : Z) : x ∈ range a b <-> a <= x < b.
Proof. unfold range. rewrite elem_of_seqZ. lia. Qed.

(** The state the loop starts from: an empty trace, the files as they
    were, and [float('inf')] as best loss, with or without a checkpoint. *)
Lemma initialize_inv (args : Args) (fs : gmap string Checkpoint)
    (start : Z) (s0 : State) :
  initialize args fs = Ret (start, s0) ->
  trace s0 = [] /\ files s0 = fs /\ best_loss s0 = inf.
Proof.
  unfold initialize. destruct (checkpoint args) as [path|].
  - destruct (fs !! path) as [ck|]; [|discriminate].
    intros E. inversion E. subst. auto.
  - intros E. inversion E. subst. auto.
Qed.

(** Restoring from a checkpoint: the loop starts at the saved epoch plus
    one, with the saved stall counter, model and optimizer; the saved loss
    is not read and the best loss starts at [float('inf')]. *)
Lemma initialize_from_checkpoint (args : Args) (fs : gmap string Checkpoint)
    (path : string) (ck : Checkpoint) :
  checkpoint args = Some path -> fs !! path = Some ck ->
  exists s0, initialize args fs = Ret (ck_epoch ck + 1, s0)
    /\ epochs_since_improvement s0 = ck_epochs_since_improvement ck
    /\ model s0 = ck_model ck /\ optimizer s0 = ck_optimizer ck
    /\ best_loss s0 = inf.
Proof.
  intros Hc Hf. unfold initialize. rewrite Hc, Hf. eexists. split; [reflexivity|].
  auto.
Qed.

Lemma initialize_returns (args : Args) (fs : gmap string Checkpoint) :
  (forall path, checkpoint args = Some path -> is_Some (fs !! path)) ->
  exists start s0, initialize args fs = Ret (start, s0).
Proof.
  intros H. unfold initialize. destruct (checkpoint args) as [path|]; [|eauto].
  destruct (H path eq_refl) as [ck ->]. eauto.
Qed.

Lemma train_net_eq (test : Model -> float * float) (args : Args)
    (fs : gmap string Checkpoint) (start : Z) (s0 : State) :
  initialize args fs = Ret (start, s0) ->
  train_net test args fs =
  Ran start (for_ (range start (end_epoch args)) (epoch_body test) s0).1
            (for_ (range start (end_epoch args)) (epoch_body test) s0).2.
Proof.
  intros H. unfold train_net. rewrite H.
  destruct (for_ _ _ _) as [s r]. reflexivity.
Qed.

End RunFacts.

(** C5. Whatever the evaluation returns, and so however large the stall
    counter grows, a run whose [print_freq] is not zero and whose checkpoint
    path, if any, holds a checkpoint goes through every epoch from the
    start epoch up to, and excluding, [end_epoch], one checkpoint saved per
    epoch in that order, and then returns. *)
Theorem epoch_loop_runs_to_end_epoch `{T : Torch} `{C : Config}
    (test : Model -> float * float) (args : Args)
    (fs : gmap string Checkpoint) :
  print_freq <> 0 ->
  (forall path, checkpoint args = Some path -> is_Some (fs !! path)) ->
  exists (start : Z) (s0 s : State),
    initialize args fs = Ret (start, s0)
    /\ train_net test args fs = Ran start s (Ret tt)
    /\ saved_epochs (trace s) = range start (end_epoch args)
    /\ (forall epoch : Z,
          epoch ∈ saved_epochs (trace s) <-> start <= epoch < end_epoch args).
Proof.
  intros Hp Hf. destruct (initialize_returns args fs Hf) as (start & s0 & Hi).
  destruct (initialize_inv args fs start s0 Hi) as (Htr & _ & _).
  pose proof (for_epochs_complete test (range start (end_epoch args)) s0 Hp) as H.
  cbv zeta in H. destruct H as [Hr Hs]. rewrite Htr in Hs. simpl in Hs.
  exists start, s0, (for_ (range start (end_epoch args)) (epoch_body test) s0).1.
  split; [exact Hi|]. split; [|split].
  - rewrite (train_net_eq test args fs start s0 Hi), Hr. reflexivity.
  - exact Hs.
  - intros epoch. rewrite Hs. apply elem_of_range.
Qed.

(** C10. When the start epoch has reached [end_epoch] the loop body never
    runs: the run returns in the state it was initialised to, whose trace
    is empty (no batch, no evaluation, no call of [save_checkpoint]) and
    whose files are the files it started with. *)
Theorem no_epoch_when_start_reaches_end `{T : Torch} `{C : Config}
    (test : Model -> float * float) (args : Args)
    (fs : gmap string Checkpoint) (start : Z) (s0 : State) :
  initialize args fs = Ret (start, s0) ->
  end_epoch args <= start ->
  train_net test args fs = Ran start s0 (Ret tt)
  /\ run_trace (train_net test args fs) = []
  /\ run_files fs (train_net test args fs) = fs.
Proof.
  intros Hi Hle. destruct (initialize_inv args fs start s0 Hi) as (Htr & Hfs & _).
  rewrite (train_net_eq test args fs start s0 Hi), (range_nil _ _ Hle).
  simpl. auto.
Qed.

(** C9. The evaluation only reads the model: the call of [test] returns
    the scores of the current model, leaves one event and changes neither
    the model, the optimizer, the loader, the best loss, the stall counter
    nor the files; and the scores never reach the parameters: with any two
    evaluations, an epoch from the same model, optimizer and loader ends
    with the same model, optimizer and loader and the same outcome, and so
    does a whole run, through the same epochs. *)
Theorem evaluation_does_not_touch_training `{T : Torch} `{C : Config} :
  (forall (test : Model -> float * float) (s : State),
     let r := call_test test s in
     r.2 = Ret (test (model s))
     /\ model r.1 = model s /\ optimizer r.1 = optimizer s
     /\ train_loader r.1 = train_loader s
     /\ best_loss r.1 = best_loss s
     /\ epochs_since_improvement r.1 = epochs_since_improvement s
     /\ files r.1 = files s
     /\ new_events s r.1 = [Test])
  /\ (forall (test1 test2 : Model -> float * float) (epoch : Z) (s : State),
        same_net (epoch_body test1 epoch s).1 (epoch_body test2 epoch s).1
        /\ (epoch_body test1 epoch s).2 = (epoch_body test2 epoch s).2)
  /\ (forall (test1 test2 : Model -> float * float) (args : Args)
        (fs : gmap string Checkpoint),
        same_training (train_net test1 args fs) (train_net test2 args fs)).
Proof.
  split; [|split].
  - intros test s. cbv zeta. rewrite call_test_eq. cbn [fst snd].
    rewrite new_events_after. unfold after. simpl. repeat split; reflexivity.
  - intros test1 test2 epoch s. apply epoch_body_same_net.
    unfold same_net. auto.
  - intros test1 test2 args fs. destruct (initialize args fs) as [[start s0]|e] eqn:Hi.
    + rewrite !(train_net_eq _ args fs start s0 Hi).
      destruct (for_epochs_same_net test1 test2 (range start (end_epoch args)) s0 s0)
        as [Hn Hr]; [unfold same_net; auto|].
      simpl. auto.
    + unfold train_net. rewrite Hi. reflexivity.
Qed.

(** *** Runs whose evaluations return no NaN *)

Section NanFreeRuns.

Context `{T : Torch} `{C : Config}.
Variable test : Model -> float * float.

Lemma evaluated_mse_app (a b : list Event) :
  evaluated_mse (a ++ b) = evaluated_mse a ++ evaluated_mse b.
Proof. apply omap_app. Qed.

Lemma new_events_eq (s s' : State) (evs : list Event) :
  trace s' = trace s ++ evs -> new_events s s' = evs.
Proof. intros H. unfold new_events. rewrite H. apply drop_app_length. Qed.

Lemma new_events_refl (s : State) : new_events s s = [].
Proof. apply new_events_eq. rewrite app_nil_r. reflexivity. Qed.

(** A pass logs no evaluation. *)
Lemma pass_no_evaluation (epoch n : Z) (batches : list (Z * Batch))
    (net : Model * Optimizer) (losses : AverageMeter.t) :
  evaluated_mse (pass epoch n net losses batches).1.2 = [].
Proof.
  revert net losses. induction batches as [|[i batch] rest IH]; intros net losses;
    [reflexivity|].
  cbn [pass]. destruct (batch_update net batch) as [net' v].
  destruct (print_freq =? 0); [reflexivity|].
  specialize (IH net' (AverageMeter.update losses v)).
  destruct (pass epoch n net' (AverageMeter.update losses v) rest)
    as [[net'' evs] r]. cbn [fst snd] in *.
  rewrite !evaluated_mse_app, IH. unfold batch_log.
  destruct (_ =? _); reflexivity.
Qed.

Lemma train_reads_no_evaluation (epoch : Z) (m : Model) (o : Optimizer)
    (l : Loader) :
  evaluated_mse (tr_events (train_reads epoch m o l)) = [].
Proof.
  unfold train_reads. destruct (iterate l) as [batches l'].
  pose proof (pass_no_evaluation epoch (len l') (enumerate batches)
                (model_train m, o) AverageMeter.new) as H.
  destruct (pass _ _ _ _ _) as [[net evs] r]. cbn [fst snd tr_events] in *.
  exact H.
Qed.

(** What an epoch adds to the trace: if it runs to its end, the score of
    its one evaluation and the best loss it saves. *)
Lemma epoch_body_evaluated (epoch : Z) (s : State) :
  let s' := (epoch_body test epoch s).1 in
  exists evs, trace s' = trace s ++ evs
  /\ match (epoch_body test epoch s).2 with
     | Ret _ =>
         evaluated_mse evs = [(test (model s')).2]
         /\ saved_losses evs = [best_loss s']
         /\ best_loss s' = min (test (model s')).2 (best_loss s)
     | Raise _ => evaluated_mse evs = [] /\ saved_losses evs = []
     end.
Proof.
  cbv zeta. rewrite epoch_body_eq. cbv zeta.
  pose proof (train_reads_no_save epoch (model s) (optimizer s) (train_loader s)) as Hns.
  apply no_save_saved in Hns. destruct Hns as (_ & Hns & _).
  pose proof (train_reads_no_evaluation epoch (model s) (optimizer s)
                (train_loader s)) as Hne.
  destruct (train_reads epoch (model s) (optimizer s) (train_loader s))
    as [m o l evs [train_loss|e]];
    cbn [tr_result tr_model tr_optimizer tr_loader tr_events fst snd] in *.
  - eexists. split; [reflexivity|].
    cbn [tr_events tr_model tr_optimizer tr_loader].
    rewrite evaluated_mse_app, saved_losses_app, Hns, Hne.
    unfold epoch_events. rewrite !evaluated_mse_app, !saved_losses_app.
    unfold checkpointed. cbn [model best_loss tr_model app].
    destruct (ltb (test m).2 (best_loss s)); auto.
  - eexists. split; [reflexivity|]. auto.
Qed.

(** The loop only adds to the trace. *)
Lemma for_epochs_extends (epochs : list Z) (s : State) :
  exists evs, trace (for_ epochs (epoch_body test) s).1 = trace s ++ evs.
Proof.
  revert s. induction epochs as [|epoch epochs IH]; intros s.
  - exists []. cbn. rewrite app_nil_r. reflexivity.
  - rewrite for_cons.
    destruct (epoch_body_evaluated epoch s) as (evs & Htr & _). cbv zeta in Htr.
    destruct (epoch_body test epoch s) as [s1 [[]|e]]; cbn [fst snd] in *.
    + destruct (IH s1) as (evs' & Htr'). exists (evs ++ evs').
      rewrite Htr', Htr, app_assoc. reflexivity.
    + exists evs. exact Htr.
Qed.

(** When none of the scores the evaluations of the loop returned is NaN,
    the best loss saved by each epoch is at most the one before it. *)
Lemma for_epochs_non_increasing_run (epochs : list Z) (s : State) :
  is_nan (best_loss s) = false ->
  let s' := (for_ epochs (epoch_body test) s).1 in
  Forall (fun x => is_nan x = false) (evaluated_mse (new_events s s')) ->
  non_increasing_from (best_loss s) (saved_losses (new_events s s')).
Proof.
  cbv zeta. revert s. induction epochs as [|epoch epochs IH]; intros s Hs.
  - cbn [for_ ret fst]. rewrite new_events_refl. intros _. exact I.
  - rewrite for_cons.
    destruct (epoch_body_evaluated epoch s) as (evs & Htr & Hev). cbv zeta in Htr.
    destruct (epoch_body test epoch s) as [s1 [[]|e]]; cbn [fst snd] in *.
    + destruct (for_epochs_extends epochs s1) as (evs' & Htr').
      specialize (IH s1). rewrite (new_events_eq _ _ _ Htr') in IH.
      rewrite (new_events_eq s _ (evs ++ evs'))
        by (rewrite Htr', Htr, app_assoc; reflexivity).
      destruct Hev as (Heval & Hsaved & Hbest).
      rewrite evaluated_mse_app, saved_losses_app, Heval, Hsaved.
      cbn [app]. intros Hall. apply Forall_cons in Hall. destruct Hall as [Hm Hall].
      assert (Hs1 : is_nan (best_loss s1) = false)
        by (rewrite Hbest; apply PyFloatFacts.min_not_nan; auto).
      split; [|apply IH; assumption].
      rewrite Hbest. apply PyFloatFacts.min_leb_r; auto.
    + rewrite (new_events_eq _ _ _ Htr). destruct Hev as [_ ->]. intros _. exact I.
Qed.

End NanFreeRuns.

(** C3, as amended. In a run in which no evaluation returns NaN as its MSE
    score, the best loss is non-increasing: the best loss stored by each
    epoch's update is at most the one stored by the epoch before, and the
    first is at most the initial [float('inf')]. Only the scores the run
    got back from [test] matter, not what [test] would return on other
    models. *)
Theorem best_loss_non_increasing `{T : Torch} `{C : Config}
    (test : Model -> float * float) (args : Args)
    (fs : gmap string Checkpoint) :
  Forall (fun x => is_nan x = false)
    (evaluated_mse (run_trace (train_net test args fs))) ->
  non_increasing_from inf (saved_losses (run_trace (train_net test args fs))).
Proof.
  destruct (initialize args fs) as [[start s0]|e] eqn:Hi.
  - destruct (initialize_inv args fs start s0 Hi) as (Htr & _ & Hb).
    rewrite (train_net_eq test args fs start s0 Hi). cbn [run_trace].
    pose proof (for_epochs_non_increasing_run test
                  (range start (end_epoch args)) s0) as H.
    cbv zeta in H. unfold new_events in H. rewrite Htr, Hb in H.
    cbn [length] in H. rewrite drop_0 in H. apply H. reflexivity.
  - unfold train_net. rewrite Hi. intros _. exact I.
Qed.

(** ** Concrete runs *)

(** The scenario of the spec: a fresh run whose evaluations yield the MSE
    scores 0.05, 0.06 and 0.04 saves a best checkpoint at epoch 0, stalls
    once at epoch 1 and resets the stall counter at epoch 2. *)
Example scenario_three_epochs :
  Toy.saves (Toy.run [ratio 5 100; ratio 6 100; ratio 4 100] None 3 ∅) =
  [SaveCheckpoint 0 0 (ratio 5 100) true;
   SaveCheckpoint 1 1 (ratio 5 100) false;
   SaveCheckpoint 2 0 (ratio 4 100) true].
Proof. vm_compute. reflexivity. Qed.

(** The loop does not stop on the stall counter: with ten epochs and no
    improvement after the first, the counter reaches nine and all ten
    epochs are run. *)
Example stalled_run_goes_on :
  Toy.saves (Toy.run [ratio 5 100] None 10 ∅) =
  SaveCheckpoint 0 0 (ratio 5 100) true ::
  map (fun n => SaveCheckpoint n n (ratio 5 100) false) (seqZ 1 9).
Proof. vm_compute. reflexivity. Qed.

(** C1. A run of three epochs whose evaluations yield the MSE scores
    0.04, 0.06 and 0.07 leaves a latest checkpoint with epoch 2, stall
    counter 2 and best loss 0.04. The run resumed from it starts at epoch 3
    with the saved stall counter 2 but with [float('inf')] as best loss:
    when the evaluation of epoch 3 yields 0.05 the resumed run counts it as
    an improvement, resets the stall counter and overwrites the best
    checkpoint, where the run that was not interrupted keeps the best loss
    0.04 and counts a third epoch without improvement. *)
Theorem resumed_run_forgets_best_loss :
  let scores := [ratio 4 100; ratio 6 100; ratio 7 100; ratio 5 100] in
  let fs := Toy.files_after scores 3 in
  Toy.slot fs "latest" = Some (2, 2, ratio 4 100)
  /\ Toy.slot fs "best" = Some (0, 0, ratio 4 100)
  /\ initial_bookkeeping (initialize (Toy.args (Some "latest") 4) fs)
     = Some (3, 2, inf)
  /\ Toy.saves (Toy.run scores (Some "latest") 4 fs) =
     [SaveCheckpoint 3 0 (ratio 5 100) true]
  /\ Toy.slot (run_files fs (Toy.run scores (Some "latest") 4 fs)) "best"
     = Some (3, 0, ratio 5 100)
  /\ Toy.saves (Toy.run scores None 4 ∅) =
     [SaveCheckpoint 0 0 (ratio 4 100) true;
      SaveCheckpoint 1 1 (ratio 4 100) false;
      SaveCheckpoint 2 2 (ratio 4 100) false;
      SaveCheckpoint 3 3 (ratio 4 100) false].
Proof.
  cbv zeta. split; [|split; [|split; [|split; [|split]]]].
  - vm_compute. reflexivity.
  - vm_compute. reflexivity.
  - vm_compute. reflexivity.
  - vm_compute. reflexivity.
  - vm_compute. reflexivity.
  - vm_compute. reflexivity.
Qed.

(** C3, the claim as stated fails: when the evaluations of a fresh run
    yield the MSE scores 0.04, NaN and 0.5, the best loss stored after the
    three epochs is 0.04, then NaN, then 0.5. NaN is not at most 0.04, and
    0.5 is above 0.04. *)
Lemma best_loss_increases_after_nan :
  let r := Toy.run [ratio 4 100; nan; ratio 1 2] None 3 ∅ in
  saved_losses (run_trace r) = [ratio 4 100; nan; ratio 1 2]
  /\ leb nan (ratio 4 100) = false
  /\ ltb (ratio 4 100) (ratio 1 2) = true
  /\ ~ non_increasing_from inf (saved_losses (run_trace r)).
Proof.
  cbv zeta.
  assert (E : saved_losses
                (run_trace (Toy.run [ratio 4 100; nan; ratio 1 2] None 3 ∅))
              = [ratio 4 100; nan; ratio 1 2]) by (vm_compute; reflexivity).
  rewrite E. split; [reflexivity|].
  split; [reflexivity|]. split; [vm_compute; reflexivity|].
  intros (_ & H & _). discriminate H.
Qed.

(** ** The theorems at concrete inputs *)



(** A fresh run to [end_epoch] 3 with [print_freq] 2 goes through the
    epochs 0, 1 and 2. *)
Lemma epoch_loop_runs_to_end_epoch_witness :
  @print_freq Toy.config <> 0
  /\ exists (start : Z) (s0 s : State),
       initialize (T := Toy.torch) (Toy.args None 3) ∅ = Ret (start, s0)
       /\ Toy.run [ratio 5 100; ratio 6 100; ratio 4 100] None 3 ∅
          = Ran start s (Ret tt)
       /\ saved_epochs (trace s) = range start 3
       /\ (forall epoch : Z, epoch ∈ saved_epochs (trace s) <-> start <= epoch < 3).
Proof.
  split; [discriminate|].
  apply (epoch_loop_runs_to_end_epoch (T := Toy.torch) (C := Toy.config)
           (Toy.test [ratio 5 100; ratio 6 100; ratio 4 100]) (Toy.args None 3) ∅).
  - discriminate.
  - intros path H. discriminate H.
Defined.

(** Resuming from the latest checkpoint of a finished run of three epochs
    with [end_epoch] still 3: the start epoch is 3, nothing is run and the
    files stay as they were. *)
Lemma no_epoch_when_start_reaches_end_witness :
  let fs := Toy.files_after [ratio 5 100; ratio 6 100; ratio 4 100] 3 in
  initial_bookkeeping (initialize (T := Toy.torch) (Toy.args (Some "latest") 3) fs)
    = Some (3, 0, inf)
  /\ run_trace (Toy.run [ratio 5 100] (Some "latest") 3 fs) = []
  /\ run_files (T := Toy.torch) fs (Toy.run [ratio 5 100] (Some "latest") 3 fs) = fs.
Proof.
  cbv zeta.
  assert (B : initial_bookkeeping
                (initialize (T := Toy.torch) (Toy.args (Some "latest") 3)
                   (Toy.files_after [ratio 5 100; ratio 6 100; ratio 4 100] 3))
              = Some (3, 0, inf)) by (vm_compute; reflexivity).
  split; [exact B|].
  destruct (initialize (T := Toy.torch) (Toy.args (Some "latest") 3)
              (Toy.files_after [ratio 5 100; ratio 6 100; ratio 4 100] 3))
    as [[start s0]|e] eqn:Hi; [|discriminate B].
  assert (Hstart : start = 3) by (simpl in B; congruence).
  subst start.
  apply (no_epoch_when_start_reaches_end (T := Toy.torch) (C := Toy.config)
           (Toy.test [ratio 5 100]) (Toy.args (Some "latest") 3) _ 3 s0 Hi).
  simpl. lia.
Defined.

(** A run of three epochs whose evaluations return 0.05, 0.06 and 0.04:
    no score of the run is NaN, though the evaluation would return NaN on
    the model of a fourth epoch, and the best losses saved are
    non-increasing. *)
Lemma best_loss_non_increasing_witness :
  is_nan (Toy.test [ratio 5 100; ratio 6 100; ratio 4 100; nan] 4).2 = true
  /\ Forall (fun x => is_nan x = false)
       (evaluated_mse
          (run_trace
             (Toy.run [ratio 5 100; ratio 6 100; ratio 4 100; nan] None 3 ∅)))
  /\ non_increasing_from inf
       (saved_losses
          (run_trace
             (Toy.run [ratio 5 100; ratio 6 100; ratio 4 100; nan] None 3 ∅))).
Proof.
  split; [reflexivity|]. unfold Toy.run.
  assert (E : evaluated_mse
                (run_trace
                   (train_net (T := Toy.torch) (C := Toy.config)
                      (Toy.test [ratio 5 100; ratio 6 100; ratio 4 100; nan])
                      (Toy.args None 3) ∅))
              = [ratio 5 100; ratio 6 100; ratio 4 100])
    by (vm_compute; reflexivity).
  assert (H : Forall (fun x => is_nan x = false)
                (evaluated_mse
                   (run_trace
                      (train_net (T := Toy.torch) (C := Toy.config)
                         (Toy.test [ratio 5 100; ratio 6 100; ratio 4 100; nan])
                         (Toy.args None 3) ∅)))).
  { rewrite E. repeat constructor. }
  split; [exact H|].
  apply (best_loss_non_increasing (T := Toy.torch) (C := Toy.config)
           (Toy.test [ratio 5 100; ratio 6 100; ratio 4 100; nan])
           (Toy.args None 3) ∅).
  exact H.
Defined.

(** The meter fed with 2.0, 4.0, 6.0, and a pass over batches with these
    losses, with [print_freq] 2. *)
Lemma train_returns_running_mean_witness :
  [of_Z 2; of_Z 4; of_Z 6] <> []
  /\ AverageMeter.avg
       (fold_left AverageMeter.update [of_Z 2; of_Z 4; of_Z 6]
          (AverageMeter.reset AverageMeter.new))
     = AverageMeter.mean [of_Z 2; of_Z 4; of_Z 6]
  /\ @print_freq Toy.config <> 0
  /\ (train (T := Toy.torch) (C := Toy.config) 0 Toy.state0).2 = Ret (AverageMeter.mean [of_Z 2; of_Z 4; of_Z 6]).
Proof.
  destruct (train_returns_running_mean (T := Toy.torch) (C := Toy.config))
    as (_ & _ & Hmean & Htrain).
  split; [discriminate|].
  split; [apply Hmean; discriminate|].
  split; [discriminate|].
  destruct (Htrain 0 Toy.state0) as [_ H]; [discriminate|].
  apply H. discriminate.
Defined.

(** ** Further properties of [train] *)

Section TrainEdges.

Context `{T : Torch} `{C : Config}.

Lemma train_reads_empty (epoch : Z) (m : Model) (o : Optimizer) (l : Loader) :
  (iterate l).1 = [] ->
  train_reads epoch m o l =
  {| tr_model := model_train m; tr_optimizer := o; tr_loader := (iterate l).2;
     tr_events := [ModelTrain]; tr_result := Ret zero |}.
Proof.
  unfold train_reads. destruct (iterate l) as [batches l']. cbn [fst snd].
  intros ->. reflexivity.
Qed.

Lemma train_reads_zero_print_freq (epoch : Z) (m : Model) (o : Optimizer)
    (l : Loader) (batch : Batch) (rest : list Batch) :
  print_freq = 0 -> (iterate l).1 = batch :: rest ->
  train_reads epoch m o l =
  {| tr_model := (batch_update (model_train m, o) batch).1.1;
     tr_optimizer := (batch_update (model_train m, o) batch).1.2;
     tr_loader := (iterate l).2;
     tr_events := ModelTrain :: update_events;
     tr_result := Raise ZeroDivisionError |}.
Proof.
  intros Hp. unfold train_reads. destruct (iterate l) as [batches l'].
  cbn [fst snd]. intros ->.
  unfold enumerate. cbn [length]. rewrite Nat2Z.inj_succ, seqZ_cons by lia.
  cbn [zip zip_with pass].
  destruct (batch_update (model_train m, o) batch) as [net' v].
  rewrite Hp. reflexivity.
Qed.

End TrainEdges.

(** X1. When the loader yields no batch, [train] only switches the model to
    training mode: it returns 0.0, the average of a meter that was never
    fed, leaves the single event of [model.train()], and does so even when
    [print_freq] is zero. *)
Theorem train_empty_loader `{T : Torch} `{C : Config} (epoch : Z) (s : State) :
  (iterate (train_loader s)).1 = [] ->
  train epoch s =
  (after s (model_train (model s)) (optimizer s) (iterate (train_loader s)).2
     [ModelTrain],
   Ret zero).
Proof.
  intros H. rewrite train_eq. cbv zeta.
  rewrite (train_reads_empty epoch _ _ _ H). reflexivity.
Qed.

(** X2. When [print_freq] is zero and the loader yields at least one batch,
    [train] raises [ZeroDivisionError] at the first batch, after that
    batch's gradients were computed, clipped and applied by the optimizer
    step: the model and optimizer are those after one batch, no progress
    record is logged and the other batches are not touched. *)
Theorem train_zero_print_freq `{T : Torch} `{C : Config} (epoch : Z) (s : State)
    (batch : Batch) (rest : list Batch) :
  print_freq = 0 ->
  (iterate (train_loader s)).1 = batch :: rest ->
  let net := (batch_update (model_train (model s), optimizer s) batch).1 in
  train epoch s =
  (after s net.1 net.2 (iterate (train_loader s)).2
     [ModelTrain; ModelCall; ZeroGrad; Backward; ClipGradient grad_clip;
      OptimizerStep],
   Raise ZeroDivisionError).
Proof.
  intros Hp H. cbv zeta. rewrite train_eq. cbv zeta.
  rewrite (train_reads_zero_print_freq epoch _ _ _ batch rest Hp H). reflexivity.
Qed.

(** X3. The only exception of [train] is [ZeroDivisionError], and [train]
    raises it exactly when [print_freq] is zero and the loader yields at
    least one batch. *)
Theorem train_raises_iff `{T : Torch} `{C : Config} (epoch : Z) (s : State) :
  (forall e, (train epoch s).2 = Raise e -> e = ZeroDivisionError)
  /\ ((train epoch s).2 = Raise ZeroDivisionError <->
      print_freq = 0 /\ (iterate (train_loader s)).1 <> []).
Proof.
  split.
  - intros e. rewrite train_eq. cbv zeta. cbn [snd]. intros H.
    apply train_reads_raises in H. tauto.
  - split.
    + intros H. split.
      * rewrite train_eq in H. cbv zeta in H. cbn [snd] in H.
        apply train_reads_raises in H. tauto.
      * intros Hb. rewrite train_eq in H. cbv zeta in H.
        rewrite (train_reads_empty epoch _ _ _ Hb) in H. discriminate H.
    + intros [Hp Hb].
      destruct (iterate (train_loader s)).1 as [|batch rest] eqn:E; [congruence|].
      rewrite train_eq. cbv zeta.
      rewrite (train_reads_zero_print_freq epoch _ _ _ batch rest Hp E).
      reflexivity.
Qed.

Section TrainTrace.

Context `{T : Torch} `{C : Config}.

(** Every event of a pass is one of the events of a batch. *)
Lemma pass_batch_events (epoch n : Z) (batches : list (Z * Batch))
    (net : Model * Optimizer) (losses : AverageMeter.t) :
  Forall (fun e => is_batch_event e = true) (pass epoch n net losses batches).1.2.
Proof.
  revert net losses. induction batches as [|[i batch] rest IH]; intros net losses.
  - constructor.
  - cbn [pass]. destruct (batch_update net batch) as [net' v].
    destruct (print_freq =? 0).
    + cbn [fst snd]. repeat constructor.
    + specialize (IH net' (AverageMeter.update losses v)).
      destruct (pass epoch n net' (AverageMeter.update losses v) rest)
        as [[net'' evs] r]. cbn [fst snd] in *.
      repeat (constructor; [reflexivity|]).
      apply Forall_app. split; [|exact IH].
      unfold batch_log. destruct (_ =? _); repeat constructor.
Qed.

Lemma train_reads_batch_events (epoch : Z) (m : Model) (o : Optimizer)
    (l : Loader) :
  exists evs, tr_events (train_reads epoch m o l) = ModelTrain :: evs
    /\ Forall (fun e => is_batch_event e = true) evs.
Proof.
  unfold train_reads. destruct (iterate l) as [batches l'].
  pose proof (pass_batch_events epoch (len l') (enumerate batches)
                (model_train m, o) AverageMeter.new) as H.
  destruct (pass _ _ _ _ _) as [[net evs] r]. cbn [fst snd tr_events] in *.
  eauto.
Qed.

Lemma batch_events_filter (p : Event -> bool) (evs : list Event) :
  (forall e, is_batch_event e = true -> p e = false) ->
  Forall (fun e => is_batch_event e = true) evs ->
  List.filter p evs = [].
Proof.
  intros Hp. induction 1 as [|e evs He _ IH]; [reflexivity|].
  cbn [List.filter]. rewrite (Hp e He). exact IH.
Qed.

Lemma batch_events_scalars (evs : list Event) :
  Forall (fun e => is_batch_event e = true) evs ->
  scalars evs = [] /\ save_records evs = [].
Proof.
  induction 1 as [|e evs He _ [IH1 IH2]]; [auto|].
  destruct e; try discriminate He; cbn; auto.
Qed.

End TrainTrace.

(** X4. A call of [train] keeps out of the bookkeeping: it leaves the best
    loss, the stall counter and the checkpoint files as they are, and its
    events are [model.train()], once and first, followed by events of
    batches only, so it never calls [test], [save_checkpoint] or the
    TensorBoard writer. *)
Theorem train_leaves_bookkeeping `{T : Torch} `{C : Config}
    (epoch : Z) (s : State) :
  let s' := (train epoch s).1 in
  best_loss s' = best_loss s
  /\ epochs_since_improvement s' = epochs_since_improvement s
  /\ files s' = files s
  /\ (exists evs, new_events s s' = ModelTrain :: evs
        /\ Forall (fun e => is_batch_event e = true) evs)
  /\ List.filter is_test (new_events s s') = []
  /\ List.filter is_save (new_events s s') = []
  /\ scalars (new_events s s') = []
  /\ List.filter is_model_train (new_events s s') = [ModelTrain].
Proof.
  cbv zeta. rewrite train_eq. cbv zeta. cbn [fst]. rewrite new_events_after.
  destruct (train_reads_batch_events epoch (model s) (optimizer s) (train_loader s))
    as (evs & -> & Hevs).
  cbn [after best_loss epochs_since_improvement files].
  repeat (split; [reflexivity|]).
  split; [eauto|].
  cbn [List.filter is_test is_save is_model_train scalars omap list_omap].
  rewrite !(batch_events_filter _ evs) by
    (assumption || (intros e; destruct e; cbn; congruence)).
  destruct (batch_events_scalars evs Hevs) as [Hsc _].
  fold (scalars evs). rewrite Hsc. auto.
Qed.

(** ** The progress records of a pass *)

Section Progress.

Context `{T : Torch} `{C : Config}.

Lemma running_length (m : AverageMeter.t) (xs : list float) :
  length (running m xs) = length xs.
Proof.
  revert m. induction xs as [|x xs IH]; intros m; cbn; [reflexivity|].
  rewrite IH. reflexivity.
Qed.

Lemma running_lookup (m : AverageMeter.t) (xs : list float) (k : nat)
    (r : AverageMeter.t) :
  running m xs !! k = Some r ->
  r = fold_left AverageMeter.update (take (S k) xs) m
  /\ xs !! k = Some (AverageMeter.val r).
Proof.
  revert m k. induction xs as [|x xs IH]; intros m k; [discriminate|].
  destruct k as [|k]; cbn [running lookup list_lookup].
  - intros E. inversion E. subst. cbn. rewrite take_0. auto.
  - intros E. apply IH in E. exact E.
Qed.

Lemma batch_losses_length (net : Model * Optimizer) (batches : list Batch) :
  length (batch_losses net batches) = length batches.
Proof.
  revert net. induction batches as [|b batches IH]; intros net; [reflexivity|].
  cbn [batch_losses]. destruct (batch_update net b) as [net' v].
  cbn [length]. rewrite IH. reflexivity.
Qed.

Lemma progress_records_app (a b : list Event) :
  progress_records (a ++ b) = progress_records a ++ progress_records b.
Proof. apply omap_app. Qed.

(** The record a batch may leave: one for the index [i] and the meter [m]
    after the batch when [i % print_freq == 0]. *)
Lemma pass_progress_records (epoch n : Z) (batches : list (Z * Batch))
    (net : Model * Optimizer) (losses : AverageMeter.t) :
  print_freq <> 0 ->
  progress_records (pass epoch n net losses batches).1.2 =
  omap (fun im : Z * AverageMeter.t =>
          if im.1 mod print_freq =? 0
          then Some (epoch, im.1, AverageMeter.val im.2, AverageMeter.avg im.2)
          else None)
       (zip batches.*1 (running losses (batch_losses net batches.*2))).
Proof.
  intros Hp. apply Z.eqb_neq in Hp. revert net losses.
  induction batches as [|[i batch] rest IH]; intros net losses; [reflexivity|].
  cbn [pass fmap list_fmap fst snd batch_losses].
  destruct (batch_update net batch) as [net' v]. rewrite Hp.
  specialize (IH net' (AverageMeter.update losses v)).
  destruct (pass epoch n net' (AverageMeter.update losses v) rest)
    as [[net'' evs] r]. cbn [fst snd] in *.
  cbn [running zip zip_with omap list_omap fst snd].
  rewrite !progress_records_app, IH. unfold batch_log.
  destruct (i mod print_freq =? 0); reflexivity.
Qed.

Lemma enumerate_fst {A} (xs : list A) :
  (enumerate xs).*1 = seqZ 0 (Z.of_nat (length xs)).
Proof. unfold enumerate. apply fst_zip. rewrite length_seqZ. lia. Qed.

(** The progress records of a call of [train]. *)
Lemma train_progress_records (epoch : Z) (s : State) :
  print_freq <> 0 ->
  let xs := batch_losses (model_train (model s), optimizer s)
              (iterate (train_loader s)).1 in
  progress_records (new_events s (train epoch s).1) =
  omap (fun im : Z * AverageMeter.t =>
          if im.1 mod print_freq =? 0
          then Some (epoch, im.1, AverageMeter.val im.2, AverageMeter.avg im.2)
          else None)
       (zip (seqZ 0 (Z.of_nat (length xs))) (running AverageMeter.new xs)).
Proof.
  intros Hp. cbv zeta. rewrite train_eq. cbv zeta. cbn [fst].
  rewrite new_events_after. unfold train_reads.
  destruct (iterate (train_loader s)) as [batches l']. cbn [fst].
  pose proof (pass_progress_records epoch (len l') (enumerate batches)
                (model_train (model s), optimizer s) AverageMeter.new Hp) as H.
  rewrite enumerate_fst, enumerate_snd in H.
  destruct (pass _ _ _ _ _) as [[net evs] r]. cbn [fst snd tr_events] in *.
  cbn [progress_records omap list_omap]. fold (progress_records evs).
  rewrite H, batch_losses_length. reflexivity.
Qed.

Lemma omap_zip_indices {A} (p : Z -> bool) (f : Z -> A -> Z * Z * float * float)
    (g : Z -> Z * Z) (ixs : list Z) (ms : list A) :
  (forall i m, (f i m).1.1 = g i) ->
  length ixs = length ms ->
  (fun r : Z * Z * float * float => r.1.1)
    <$> omap (fun im : Z * A => if p im.1 then Some (f im.1 im.2) else None)
          (zip ixs ms)
  = g <$> List.filter p ixs.
Proof.
  intros Hf. revert ms. induction ixs as [|i ixs IH]; intros [|m ms] Hl;
    try discriminate Hl; [reflexivity|].
  cbn [zip zip_with omap list_omap fst snd List.filter].
  injection Hl as Hl. specialize (IH ms Hl). cbn [zip] in IH.
  destruct (p i); cbn [fmap list_fmap]; rewrite IH; [rewrite Hf|]; reflexivity.
Qed.

End Progress.

(** X5. With a [print_freq] that is not zero, a call of [train] logs one
    progress record for each batch index [i] with [i % print_freq == 0],
    in order and for this epoch, and none for the other batches; the first
    batch, of index 0, is always logged. *)
Theorem train_progress_indices `{T : Torch} `{C : Config} (epoch : Z) (s : State) :
  print_freq <> 0 ->
  (fun r : Z * Z * float * float => r.1.1)
    <$> progress_records (new_events s (train epoch s).1)
  = (fun i => (epoch, i))
      <$> List.filter (fun i => i mod print_freq =? 0)
            (seqZ 0 (Z.of_nat (length (iterate (train_loader s)).1))).
Proof.
  intros Hp. rewrite (train_progress_records epoch s Hp). cbv zeta.
  rewrite batch_losses_length.
  apply (omap_zip_indices (fun i => i mod print_freq =? 0)
           (fun i m => (epoch, i, AverageMeter.val m, AverageMeter.avg m))).
  - reflexivity.
  - rewrite length_seqZ, running_length, batch_losses_length. lia.
Qed.

(** X6. With a [print_freq] that is not zero, every progress record of a
    call of [train] carries, for its batch index [i], the loss of batch [i]
    and the running average over the batches 0 to [i] of the pass. *)
Theorem train_progress_values `{T : Torch} `{C : Config} (epoch : Z) (s : State)
    (e i : Z) (val avg : float) :
  print_freq <> 0 ->
  (e, i, val, avg) ∈ progress_records (new_events s (train epoch s).1) ->
  let xs := batch_losses (model_train (model s), optimizer s)
              (iterate (train_loader s)).1 in
  e = epoch /\ 0 <= i
  /\ xs !! Z.to_nat i = Some val
  /\ avg = AverageMeter.mean (take (S (Z.to_nat i)) xs).
Proof.
  intros Hp Hin. cbv zeta. rewrite (train_progress_records epoch s Hp) in Hin.
  cbv zeta in Hin.
  set (xs := batch_losses (model_train (model s), optimizer s)
               (iterate (train_loader s)).1) in *.
  apply list_elem_of_omap in Hin. destruct Hin as ([j m] & Hzip & Hrec).
  cbn [fst snd] in Hrec.
  destruct (j mod print_freq =? 0); [|discriminate Hrec].
  inversion Hrec; subst e i val avg; clear Hrec.
  apply list_elem_of_lookup in Hzip. destruct Hzip as [k Hk].
  apply lookup_zip_with_Some in Hk.
  destruct Hk as (j' & m' & Heq & Hj & Hm). inversion Heq; subst j' m'; clear Heq.
  apply lookup_seqZ in Hj. destruct Hj as [-> Hlt].
  replace (Z.to_nat (0 + Z.of_nat k)) with k by lia.
  apply running_lookup in Hm. destruct Hm as [-> Hval].
  split; [reflexivity|]. split; [lia|]. split; [exact Hval|].
  apply (AverageMeterFacts.avg_mean (take (S k) xs) AverageMeter.new).
  destruct xs; [discriminate Hval|discriminate].
Qed.

(** ** Further properties of an epoch *)

Module PyFloatMore.

Import SpecFloat.

Lemma eqb_refl (x : float) : is_nan x = false -> eqb x x = true.
Proof. intros H. unfold eqb, SFeqb. rewrite PyFloatFacts.compare_refl; auto. Qed.

(** Two floats that are not NaN and of which neither is below the other
    are equal. *)
Lemma not_ltb_eqb (x y : float) :
  is_nan x = false -> is_nan y = false ->
  ltb x y = false -> ltb y x = false -> eqb x y = true.
Proof.
  intros Hx Hy. unfold ltb, eqb, SFltb, SFeqb.
  rewrite (PyFloatFacts.compare_antisym y x).
  destruct (PyFloatFacts.compare_total x y Hx Hy) as [c ->].
  destruct c; simpl; congruence.
Qed.

Lemma ltb_nan_l (x : float) : ltb nan x = false.
Proof. reflexivity. Qed.

Lemma ltb_nan_r (x : float) : ltb x nan = false.
Proof. destruct x; reflexivity. Qed.

Lemma is_nan_eq (x : float) : is_nan x = true -> x = nan.
Proof. destruct x; try discriminate; reflexivity. Qed.

End PyFloatMore.

Section EpochEdges.

Context `{T : Torch} `{C : Config}.
Variable test : Model -> float * float.

Lemma train_reads_records (epoch : Z) (m : Model) (o : Optimizer) (l : Loader) :
  scalars (tr_events (train_reads epoch m o l)) = []
  /\ save_records (tr_events (train_reads epoch m o l)) = [].
Proof.
  destruct (train_reads_batch_events epoch m o l) as (evs & -> & Hevs).
  apply (batch_events_scalars evs Hevs).
Qed.

Lemma scalars_app (a b : list Event) : scalars (a ++ b) = scalars a ++ scalars b.
Proof. apply omap_app. Qed.

Lemma save_records_app (a b : list Event) :
  save_records (a ++ b) = save_records a ++ save_records b.
Proof. apply omap_app. Qed.

(** What an epoch whose training returned adds to the trace. *)
Lemma epoch_new_events (epoch : Z) (s s1 : State) (train_loss : float) :
  train epoch s = (s1, Ret train_loss) ->
  let s' := (epoch_body test epoch s).1 in
  let scores := test (model s1) in
  let is_best := ltb scores.2 (best_loss s) in
  new_events s s' =
  new_events s s1
  ++ epoch_events epoch (get_learning_rate (optimizer s1)) train_loss
       scores.1 scores.2 is_best (epochs_since_improvement s') (best_loss s')
  /\ best_loss s' = min scores.2 (best_loss s)
  /\ epochs_since_improvement s' =
     (if is_best then 0 else epochs_since_improvement s + 1)
  /\ files s' !! "best" =
     (if is_best then Some (snapshot epoch s') else files s !! "best")
  /\ files s' !! "latest" = Some (snapshot epoch s')
  /\ model s' = model s1 /\ optimizer s' = optimizer s1
  /\ train_loader s' = train_loader s1.
Proof.
  intros H. pose proof (epoch_body_after_train test epoch s s1 train_loss H)
    as (Hb & Hm & Ho & Ht).
  apply train_inv in H. cbv zeta in H. destruct H as [_ Hs1].
  cbv zeta. rewrite Hb. cbn [fst]. rewrite Hm, Ho.
  unfold new_events at 1 2. rewrite Ht, !drop_app_length.
  unfold checkpointed, snapshot.
  cbn [trace best_loss epochs_since_improvement files model optimizer train_loader].
  rewrite drop_app_length.
  split; [reflexivity|]. split; [reflexivity|]. split; [reflexivity|].
  split.
  { destruct (ltb _ _); [apply lookup_insert_eq|].
    apply lookup_insert_ne. discriminate. }
  split.
  { destruct (ltb _ _); [|apply lookup_insert_eq].
    rewrite lookup_insert_ne by discriminate. apply lookup_insert_eq. }
  rewrite Hs1. auto.
Qed.

(** The call of [save_checkpoint] and the scalars of such an epoch. *)
Lemma epoch_records (epoch : Z) (s s1 : State) (train_loss : float) :
  train epoch s = (s1, Ret train_loss) ->
  let s' := (epoch_body test epoch s).1 in
  let scores := test (model s1) in
  save_records (new_events s s') =
    [(epoch, epochs_since_improvement s', best_loss s',
      ltb scores.2 (best_loss s))]
  /\ scalars (new_events s s') =
     [("model/train_loss"%string, train_loss, epoch);
      ("model/sad_loss"%string, scores.1, epoch);
      ("model/mse_loss"%string, scores.2, epoch)].
Proof.
  intros H. cbv zeta.
  destruct (epoch_new_events epoch s s1 train_loss H) as (Hev & _).
  cbv zeta in Hev. rewrite Hev. clear Hev.
  apply train_inv in H. cbv zeta in H. destruct H as [_ ->].
  rewrite new_events_after.
  destruct (train_reads_records epoch (model s) (optimizer s) (train_loader s))
    as [Hsc Hsv].
  rewrite save_records_app, scalars_app, Hsc, Hsv. unfold epoch_events.
  rewrite !save_records_app, !scalars_app.
  destruct (ltb _ _); split; reflexivity.
Qed.

End EpochEdges.

(** X7. When the evaluation of an epoch returns NaN as MSE score, the epoch
    is not counted as an improvement, the stall counter goes up by one, the
    best slot is left as it was, and NaN becomes the best loss that is
    saved. *)
Theorem epoch_with_nan_score `{T : Torch} `{C : Config}
    (test : Model -> float * float) (epoch : Z) (s s1 : State)
    (train_loss : float) :
  train epoch s = (s1, Ret train_loss) ->
  is_nan (test (model s1)).2 = true ->
  let s' := (epoch_body test epoch s).1 in
  best_loss s' = nan
  /\ epochs_since_improvement s' = epochs_since_improvement s + 1
  /\ save_records (new_events s s') =
     [(epoch, epochs_since_improvement s + 1, nan, false)]
  /\ files s' !! "best" = files s !! "best".
Proof.
  intros H Hnan. cbv zeta.
  destruct (epoch_new_events test epoch s s1 train_loss H)
    as (_ & Hb & Hn & Hf & _).
  destruct (epoch_records test epoch s s1 train_loss H) as [Hr _].
  cbv zeta in *. apply PyFloatMore.is_nan_eq in Hnan.
  rewrite Hnan, PyFloatMore.ltb_nan_l in *.
  rewrite PyFloatFacts.min_nan_l in Hb.
  rewrite Hr, Hb, Hn. auto.
Qed.

(** X8. When the best loss is NaN at the start of an epoch, the MSE score
    of the epoch becomes the best loss whatever its value, yet the epoch is
    not counted as an improvement: the stall counter goes up by one and the
    best slot is left as it was. *)
Theorem epoch_after_nan_best_loss `{T : Torch} `{C : Config}
    (test : Model -> float * float) (epoch : Z) (s s1 : State)
    (train_loss : float) :
  train epoch s = (s1, Ret train_loss) ->
  is_nan (best_loss s) = true ->
  let s' := (epoch_body test epoch s).1 in
  best_loss s' = (test (model s1)).2
  /\ epochs_since_improvement s' = epochs_since_improvement s + 1
  /\ save_records (new_events s s') =
     [(epoch, epochs_since_improvement s + 1, (test (model s1)).2, false)]
  /\ files s' !! "best" = files s !! "best".
Proof.
  intros H Hnan. cbv zeta.
  destruct (epoch_new_events test epoch s s1 train_loss H)
    as (_ & Hb & Hn & Hf & _).
  destruct (epoch_records test epoch s s1 train_loss H) as [Hr _].
  cbv zeta in *. apply PyFloatMore.is_nan_eq in Hnan.
  rewrite Hnan, PyFloatMore.ltb_nan_r in *.
  rewrite PyFloatFacts.min_nan_r in Hb.
  rewrite Hr, Hb, Hn. auto.
Qed.

(** X9. When neither the MSE score of an epoch nor the best loss is NaN and
    the score is not strictly below the best loss, the best loss after the
    epoch is equal ([==]) to the best loss before it, and at most the
    score. *)
Theorem epoch_without_improvement_keeps_best_loss `{T : Torch} `{C : Config}
    (test : Model -> float * float) (epoch : Z) (s s1 : State)
    (train_loss : float) :
  train epoch s = (s1, Ret train_loss) ->
  is_nan (test (model s1)).2 = false ->
  is_nan (best_loss s) = false ->
  ltb (test (model s1)).2 (best_loss s) = false ->
  let s' := (epoch_body test epoch s).1 in
  eqb (best_loss s') (best_loss s) = true
  /\ leb (best_loss s') (test (model s1)).2 = true.
Proof.
  intros H Hm Hb Hlt. cbv zeta.
  destruct (epoch_new_events test epoch s s1 train_loss H) as (_ & -> & _).
  unfold min. destruct (ltb (best_loss s) (test (model s1)).2) eqn:E.
  - split; [apply PyFloatMore.eqb_refl; exact Hb|].
    apply PyFloatFacts.ltb_leb, E.
  - split; [apply PyFloatMore.not_ltb_eqb; assumption|].
    apply PyFloatFacts.leb_refl, Hm.
Qed.

(** X10. An epoch whose training returns writes exactly three scalars, all
    at the step of the epoch: the value [train] returned as
    [model/train_loss], then the two scores of [test] on the trained model
    as [model/sad_loss] and [model/mse_loss]. *)
Theorem epoch_scalars `{T : Torch} `{C : Config}
    (test : Model -> float * float) (epoch : Z) (s s1 : State)
    (train_loss : float) :
  train epoch s = (s1, Ret train_loss) ->
  scalars (new_events s (epoch_body test epoch s).1) =
  [("model/train_loss"%string, train_loss, epoch);
   ("model/sad_loss"%string, (test (model s1)).1, epoch);
   ("model/mse_loss"%string, (test (model s1)).2, epoch)].
Proof.
  intros H. exact (proj2 (epoch_records test epoch s s1 train_loss H)).
Qed.

(** ** Further properties of whole runs *)

Section RunMore.

Context `{T : Torch} `{C : Config}.
Variable test : Model -> float * float.

(** What any epoch, finished or not, adds to the saved records. *)
Lemma epoch_body_records (epoch : Z) (s : State) :
  let s' := (epoch_body test epoch s).1 in
  exists evs, trace s' = trace s ++ evs
  /\ match (epoch_body test epoch s).2 with
     | Ret _ =>
         exists loss is_best,
           save_records evs =
             [(epoch, epochs_since_improvement s', loss, is_best)]
           /\ epochs_since_improvement s' =
              (if is_best : bool then 0 else epochs_since_improvement s + 1)
     | Raise _ => save_records evs = []
     end.
Proof.
  cbv zeta. destruct (epoch_body_trace test epoch s) as (evs & Htr & _).
  cbv zeta in Htr. exists evs. split; [exact Htr|].
  assert (Hnew : new_events s (epoch_body test epoch s).1 = evs).
  { unfold new_events. rewrite Htr. apply drop_app_length. }
  destruct (train epoch s) as [s1 [train_loss|e]] eqn:H.
  - destruct (epoch_body_after_train test epoch s s1 train_loss H) as (Hb & _).
    destruct (epoch_records test epoch s s1 train_loss H) as [Hr _].
    destruct (epoch_new_events test epoch s s1 train_loss H) as (_ & _ & Hn & _).
    cbv zeta in Hr, Hn. rewrite Hnew in Hr. rewrite Hb in *. cbn [fst snd] in *.
    eauto.
  - apply train_inv in H. cbv zeta in H. destruct H as [Hres _].
    rewrite epoch_body_eq in *. cbv zeta in *. rewrite Hres in *.
    cbn [fst snd] in *. rewrite new_events_after in Hnew. subst evs.
    apply train_reads_records.
Qed.

Lemma for_epochs_stall_chain (epochs : list Z) (s : State) :
  exists evs,
    trace (for_ epochs (epoch_body test) s).1 = trace s ++ evs
    /\ stall_chain (epochs_since_improvement s) epochs (save_records evs).
Proof.
  revert s. induction epochs as [|epoch epochs IH]; intros s.
  - exists []. cbn. rewrite app_nil_r. auto.
  - rewrite for_cons.
    destruct (epoch_body_records epoch s) as (evs & Htr & Hev). cbv zeta in Htr.
    destruct (epoch_body test epoch s) as [s1 [[]|e]]; cbn [fst snd] in *.
    + destruct Hev as (loss & is_best & Hrec & Hn).
      destruct (IH s1) as (evs' & Htr' & Hch).
      exists (evs ++ evs'). split; [rewrite Htr', Htr, app_assoc; reflexivity|].
      rewrite save_records_app, Hrec. cbn. auto.
    + exists evs. split; [exact Htr|]. rewrite Hev. exact I.
Qed.

(** Along a chain that starts from a stall counter that is not negative,
    every record has a stall counter that is not negative, is flagged best
    exactly when its stall counter is zero, and has a stall counter bounded
    by the epochs gone through. *)
Lemma stall_chain_bounds (records : list (Z * Z * float * bool))
    (a len k : Z) :
  stall_chain k (seqZ a len) records -> 0 <= k ->
  Forall (fun r : Z * Z * float * bool =>
            0 <= r.1.1.2 /\ (r.2 = true <-> r.1.1.2 = 0)
            /\ r.1.1.2 <= k + (r.1.1.1 - a) + 1
            /\ a <= r.1.1.1 < a + len) records.
Proof.
  revert a len k. induction records as [|[[[e n] l] b] records IH];
    intros a len k Hch Hk; [constructor|].
  cbn [stall_chain] in Hch.
  destruct (Z_le_gt_dec len 0) as [Hlen|Hlen].
  { unfold seqZ in Hch. replace (Z.to_nat len) with 0%nat in Hch by lia.
    destruct Hch. }
  rewrite seqZ_cons in Hch by lia. destruct Hch as (-> & Hn & Hch).
  assert (Hn0 : 0 <= n <= k + 1) by (destruct b; lia).
  constructor.
  - cbn [fst snd]. split; [lia|]. split; [|lia].
    destruct b; split; intros; (congruence || lia).
  - specialize (IH _ _ _ Hch (proj1 Hn0)). eapply Forall_impl; [exact IH|].
    intros [[[e' n'] l'] b']. cbn [fst snd]. intros (H1 & H2 & H3 & H4).
    split; [exact H1|]. split; [exact H2|]. lia.
Qed.

(** Whatever the files hold, an epoch does the same to everything else. *)
Lemma epoch_body_same_but_files (epoch : Z) (s1 s2 : State) :
  same_but_files s1 s2 ->
  same_but_files (epoch_body test epoch s1).1 (epoch_body test epoch s2).1
  /\ (epoch_body test epoch s1).2 = (epoch_body test epoch s2).2.
Proof.
  intros (Hm & Ho & Hb & Hn & Hl & Ht). rewrite !epoch_body_eq. cbv zeta.
  rewrite <- Hm, <- Ho, <- Hl.
  destruct (train_reads epoch (model s1) (optimizer s1) (train_loader s1))
    as [m o l evs [train_loss|e]];
    cbn [tr_result tr_model tr_optimizer tr_loader tr_events fst snd];
    unfold same_but_files, checkpointed, after;
    cbn [model optimizer best_loss epochs_since_improvement train_loader trace
         tr_model tr_optimizer tr_loader tr_events];
    rewrite <- ?Hb, <- ?Hn, <- ?Ht; auto 10.
Qed.

Lemma for_epochs_same_but_files (epochs : list Z) (s1 s2 : State) :
  same_but_files s1 s2 ->
  same_but_files (for_ epochs (epoch_body test) s1).1
                 (for_ epochs (epoch_body test) s2).1
  /\ (for_ epochs (epoch_body test) s1).2 = (for_ epochs (epoch_body test) s2).2.
Proof.
  revert s1 s2. induction epochs as [|epoch epochs IH]; intros s1 s2 H.
  - cbn. auto.
  - rewrite !for_cons.
    destruct (epoch_body_same_but_files epoch s1 s2 H) as [Hn Hr].
    destruct (epoch_body test epoch s1) as [s1' r1].
    destruct (epoch_body test epoch s2) as [s2' r2]. cbn [fst snd] in *.
    subst r2. destruct r1 as [[]|e]; [apply IH; exact Hn|]. cbn. auto.
Qed.

(** After a loop that went through at least one epoch and returned, the
    latest slot holds the final state, saved at the last epoch. *)
Lemma for_epochs_latest (epochs : list Z) (s : State) (e : Z) :
  print_freq <> 0 -> last epochs = Some e ->
  files (for_ epochs (epoch_body test) s).1 !! "latest" =
  Some (snapshot e (for_ epochs (epoch_body test) s).1).
Proof.
  intros Hp. revert s. induction epochs as [|epoch epochs IH]; intros s Hlast;
    [discriminate|].
  rewrite for_cons.
  pose proof (train_result epoch s Hp) as Hres.
  destruct (train epoch s) as [s1 r] eqn:Htrain. cbn [snd] in Hres. subst r.
  destruct (epoch_body_after_train test epoch s s1 _ Htrain) as (Hb & _).
  destruct (epoch_new_events test epoch s s1 _ Htrain)
    as (_ & _ & _ & _ & Hlatest & _).
  cbv zeta in Hlatest. rewrite Hb in *. cbn [fst] in *.
  destruct epochs as [|epoch' epochs].
  - cbn in Hlast. inversion Hlast. subst e. exact Hlatest.
  - apply IH. exact Hlast.
Qed.

Lemma last_range (a b : Z) : a < b -> last (range a b) = Some (b - 1).
Proof.
  intros H. unfold range. rewrite last_lookup, length_seqZ.
  rewrite lookup_seqZ. split; lia.
Qed.

Lemma range_cons (a b : Z) : a < b -> range a b = a :: range (a + 1) b.
Proof.
  intros H. unfold range. rewrite seqZ_cons by lia. do 2 f_equal; lia.
Qed.

End RunMore.

(** X11. In any run, finished or stopped by an exception, the calls of
    [save_checkpoint] follow the epochs of [range(start_epoch, end_epoch)]
    one by one from the first, and the stall counter of each call is 0 when
    the call is flagged best and one more than the stall counter before it
    (the restored or initial one for the first call) otherwise. *)
Theorem run_stall_chain `{T : Torch} `{C : Config}
    (test : Model -> float * float) (args : Args)
    (fs : gmap string Checkpoint) (start : Z) (s0 : State) :
  initialize args fs = Ret (start, s0) ->
  stall_chain (epochs_since_improvement s0) (range start (end_epoch args))
    (save_records (run_trace (train_net test args fs))).
Proof.
  intros Hi. destruct (initialize_inv args fs start s0 Hi) as (Htr & _ & _).
  rewrite (train_net_eq test args fs start s0 Hi). cbn [run_trace].
  destruct (for_epochs_stall_chain test (range start (end_epoch args)) s0)
    as (evs & Hevs & Hch).
  rewrite Hevs, Htr. exact Hch.
Qed.

(** X12. In any run that starts from a stall counter that is not negative
    (every fresh run does), each saved checkpoint has a stall counter that
    is not negative, is flagged best exactly when its stall counter is 0,
    has an epoch of [range(start_epoch, end_epoch)], and a stall counter of
    at most the initial one plus the number of epochs run so far. *)
Theorem saved_stall_counters `{T : Torch} `{C : Config}
    (test : Model -> float * float) (args : Args)
    (fs : gmap string Checkpoint) (start : Z) (s0 : State) :
  initialize args fs = Ret (start, s0) ->
  0 <= epochs_since_improvement s0 ->
  Forall (fun r : Z * Z * float * bool =>
            0 <= r.1.1.2 /\ (r.2 = true <-> r.1.1.2 = 0)
            /\ r.1.1.2 <= epochs_since_improvement s0 + (r.1.1.1 - start) + 1
            /\ start <= r.1.1.1 < end_epoch args)
    (save_records (run_trace (train_net test args fs))).
Proof.
  intros Hi H0. destruct (initialize_inv args fs start s0 Hi) as (Htr & _ & _).
  rewrite (train_net_eq test args fs start s0 Hi). cbn [run_trace].
  destruct (for_epochs_stall_chain test (range start (end_epoch args)) s0)
    as (evs & Hevs & Hch).
  rewrite Hevs, Htr. cbn [app].
  pose proof (stall_chain_bounds _ _ _ _ Hch H0) as H.
  eapply Forall_impl; [exact H|].
  intros r (H1 & H2 & H3 & H4). split; [exact H1|]. split; [exact H2|]. lia.
Qed.

(** X13. The loss saved in a checkpoint is never read: a run resumed from a
    checkpoint and the run resumed from the same checkpoint with any other
    saved loss start at the same epoch, leave the same trace, and end with
    the same model, optimizer, best loss, stall counter and outcome. *)
Theorem train_net_ignores_saved_loss `{T : Torch} `{C : Config}
    (test : Model -> float * float) (args : Args)
    (fs : gmap string Checkpoint) (path : string) (ck : Checkpoint)
    (loss : float) :
  checkpoint args = Some path -> fs !! path = Some ck ->
  same_run_but_files
    (train_net test args (<[path := with_loss ck loss]> fs))
    (train_net test args fs).
Proof.
  intros Hc Hf. unfold train_net, initialize. rewrite Hc, Hf, lookup_insert_eq.
  cbn [with_loss ck_epoch ck_epochs_since_improvement ck_model ck_optimizer].
  match goal with
  | |- context [for_ ?es ?body ?a] =>
      match goal with
      | |- context [for_ es body ?b] =>
          tryif constr_eq a b then fail else
            destruct (for_epochs_same_but_files test es a b) as [Hs Hr]
      end
  end.
  { unfold same_but_files. cbn. auto 10. }
  destruct (for_ _ _ _) as [s1 r1]. destruct (for_ _ _ _) as [s2 r2].
  cbn [fst snd] in *. cbn. auto.
Qed.

(** X14. A fresh run, one without a checkpoint path, never reads the
    checkpoint files: whatever files are there, it starts at epoch 0 from
    the same model and optimizer, leaves the same trace and ends with the
    same model, optimizer, best loss, stall counter and outcome. *)
Theorem fresh_run_ignores_files `{T : Torch} `{C : Config}
    (test : Model -> float * float) (args : Args)
    (fs1 fs2 : gmap string Checkpoint) :
  checkpoint args = None ->
  same_run_but_files (train_net test args fs1) (train_net test args fs2)
  /\ initial_bookkeeping (initialize args fs1) = Some (0, 0, inf).
Proof.
  intros Hc. unfold train_net, initialize. rewrite Hc. split; [|reflexivity].
  match goal with
  | |- context [for_ ?es ?body ?a] =>
      match goal with
      | |- context [for_ es body ?b] =>
          tryif constr_eq a b then fail else
            destruct (for_epochs_same_but_files test es a b) as [Hs Hr]
      end
  end.
  { unfold same_but_files. cbn. auto 10. }
  destruct (for_ _ _ _) as [s1 r1]. destruct (for_ _ _ _) as [s2 r2].
  cbn [fst snd] in *. cbn. auto.
Qed.

(** X15. With a zero [print_freq], a loader that yields at least one batch
    and a start epoch below [end_epoch], a run stops in its first epoch
    with [ZeroDivisionError], after one optimizer step: no evaluation is
    run, no checkpoint is saved and the files are left as they were. *)
Theorem train_net_zero_print_freq `{T : Torch} `{C : Config}
    (test : Model -> float * float) (args : Args)
    (fs : gmap string Checkpoint) (start : Z) (s0 : State) :
  print_freq = 0 ->
  initialize args fs = Ret (start, s0) ->
  start < end_epoch args ->
  (iterate (train_loader s0)).1 <> [] ->
  exists s : State,
    train_net test args fs = Ran start s (Raise ZeroDivisionError)
    /\ trace s = [ModelTrain; ModelCall; ZeroGrad; Backward;
                  ClipGradient grad_clip; OptimizerStep]
    /\ files s = fs
    /\ best_loss s = inf
    /\ epochs_since_improvement s = epochs_since_improvement s0.
Proof.
  intros Hp Hi Hlt Hb.
  destruct (initialize_inv args fs start s0 Hi) as (Htr & Hfs & Hbest).
  rewrite (train_net_eq test args fs start s0 Hi), (range_cons _ _ Hlt), for_cons.
  rewrite epoch_body_eq. cbv zeta.
  destruct (iterate (train_loader s0)).1 as [|batch rest] eqn:E; [congruence|].
  rewrite (train_reads_zero_print_freq start _ _ _ batch rest Hp E).
  cbn [tr_result tr_model tr_optimizer tr_loader tr_events fst snd].
  eexists. split; [reflexivity|].
  unfold after. cbn [trace files best_loss epochs_since_improvement].
  rewrite Htr. auto.
Qed.

(** X16. Saving and restoring compose: after a run that went through at
    least one epoch and returned, the latest slot holds the final state,
    saved at epoch [end_epoch - 1], and a run resumed from it starts at
    epoch [end_epoch] with the model, the optimizer and the stall counter
    the first run ended with, and with [float('inf')] as best loss. *)
Theorem resume_from_latest `{T : Torch} `{C : Config}
    (test : Model -> float * float) (args : Args)
    (fs : gmap string Checkpoint) (start : Z) (s0 : State) :
  print_freq <> 0 ->
  initialize args fs = Ret (start, s0) ->
  start < end_epoch args ->
  exists s : State,
    train_net test args fs = Ran start s (Ret tt)
    /\ files s !! "latest" = Some (snapshot (end_epoch args - 1) s)
    /\ forall last : Z,
         exists s0' : State,
           initialize (resume_args args "latest" last) (files s)
             = Ret (end_epoch args, s0')
           /\ model s0' = model s /\ optimizer s0' = optimizer s
           /\ epochs_since_improvement s0' = epochs_since_improvement s
           /\ best_loss s0' = inf.
Proof.
  intros Hp Hi Hlt.
  pose proof (for_epochs_complete test (range start (end_epoch args)) s0 Hp) as H.
  cbv zeta in H. destruct H as [Hr _].
  pose proof (for_epochs_latest test (range start (end_epoch args)) s0 _ Hp
                (last_range _ _ Hlt)) as Hlatest.
  exists (for_ (range start (end_epoch args)) (epoch_body test) s0).1.
  split; [rewrite (train_net_eq test args fs start s0 Hi), Hr; reflexivity|].
  split; [exact Hlatest|].
  intros last. unfold initialize. cbn [resume_args checkpoint].
  rewrite Hlatest. eexists. split.
  - cbn [snapshot ck_epoch]. do 2 f_equal. lia.
  - cbn. auto.
Qed.

(** ** [valid] *)

Section ValidFacts.

Context `{T : Torch}.
Variable model_eval : Model -> Model.

(** The loop of [valid] feeds the meter with the losses of the forward
    passes, in order, and makes one call of the model per batch. *)
Lemma valid_batches_eq (batches : list Batch) (m : Model)
    (losses : AverageMeter.t) (evs : list ValidEvent) :
  (valid_batches m losses evs batches).1.2 =
    fold_left AverageMeter.update (forward_losses m batches) losses
  /\ (valid_batches m losses evs batches).2 =
     evs ++ replicate (length batches) ValidModelCall.
Proof.
  revert m losses evs. induction batches as [|batch rest IH]; intros m losses evs.
  - cbn. rewrite app_nil_r. auto.
  - cbn [valid_batches forward_losses length replicate].
    destruct (model_call m batch) as [m' alpha_out].
    destruct (IH m' (AverageMeter.update losses
                       (item (alpha_prediction_loss alpha_out batch)))
                (evs ++ [ValidModelCall])) as [H1 H2].
    rewrite H1, H2, <- app_assoc. auto.
Qed.

Lemma valid_batches_nil (m : Model) (losses : AverageMeter.t)
    (evs : list ValidEvent) :
  valid_batches m losses evs [] = (m, losses, evs).
Proof. reflexivity. Qed.

End ValidFacts.

(** X17. [valid] switches the model to evaluation mode, calls the model
    once per batch and nothing else of torch (no gradient, no optimizer),
    and logs once, after the last batch, the value it returns: the average
    of a fresh meter fed with the losses of the forward passes in order,
    which is their mean when there is at least one batch and 0.0 when the
    loader yields none. *)
Theorem valid_returns_running_mean `{T : Torch} (model_eval : Model -> Model)
    (valid_loader : Loader) (m : Model) :
  let v := valid model_eval valid_loader m in
  let batches := (iterate valid_loader).1 in
  let xs := forward_losses (model_eval m) batches in
  v_result v = AverageMeter.avg (fold_left AverageMeter.update xs AverageMeter.new)
  /\ (xs <> [] -> v_result v = AverageMeter.mean xs)
  /\ (batches = [] -> v_result v = zero /\ v_model v = model_eval m)
  /\ v_events v =
     ModelEval :: replicate (length batches) ValidModelCall
     ++ [LoggerInfoValid (v_result v)]
  /\ v_loader v = (iterate valid_loader).2.
Proof.
  cbv zeta. unfold valid. destruct (iterate valid_loader) as [batches l'].
  cbn [fst snd].
  pose proof (valid_batches_eq batches (model_eval m) AverageMeter.new [ModelEval])
    as [H1 H2].
  pose proof (valid_batches_nil (model_eval m) AverageMeter.new [ModelEval]) as H0.
  destruct (valid_batches (model_eval m) AverageMeter.new [ModelEval] batches)
    as [[m' losses] evs] eqn:E.
  cbn [fst snd v_result v_events v_model v_loader] in *. subst losses evs.
  split; [reflexivity|]. split; [|split; [|split; reflexivity]].
  - intros Hxs. apply (AverageMeterFacts.avg_mean _ AverageMeter.new Hxs).
  - intros ->. rewrite H0 in E. inversion E. subst. auto.
Qed.

(** ** The best slot *)

Module PyFloatEq.

Import SpecFloat.

(** Two floats that compare equal are the same float or two zeros. *)
Lemma eqb_cases (x y : float) :
  eqb x y = true ->
  x = y \/ (exists sx sy, x = S754_zero sx /\ y = S754_zero sy).
Proof.
  unfold eqb, SFeqb.
  destruct x as [sx|sx| |sx mx ex], y as [sy|sy| |sy my ey]; simpl;
    try discriminate; try (destruct sx; discriminate);
    try (destruct sy; discriminate).
  - intros _. right. eauto.
  - destruct sx, sy; try discriminate; auto.
  - destruct sx, sy; try discriminate;
      destruct (ex ?= ey)%Z eqn:He; try discriminate;
      apply Z.compare_eq in He; subst ey;
      destruct (Pos.compare_cont Eq mx my) eqn:Hm; try discriminate;
      apply (Pos.compare_eq mx my) in Hm; subst my; auto.
Qed.

Lemma eqb_trans (x y z : float) :
  eqb x y = true -> eqb y z = true -> eqb x z = true.
Proof.
  intros Hxy Hyz.
  destruct (eqb_cases x y Hxy) as [->|(sx & sy & -> & ->)]; [exact Hyz|].
  destruct (eqb_cases _ z Hyz) as [<-|(sy' & sz & _ & ->)]; reflexivity.
Qed.

Lemma eqb_sym (x y : float) : eqb x y = true -> eqb y x = true.
Proof.
  intros H. destruct (eqb_cases x y H) as [<-|(sx & sy & -> & ->)];
    [exact H|reflexivity].
Qed.

Lemma eqb_inf (x : float) : eqb x inf = true -> x = inf.
Proof.
  intros H. destruct (eqb_cases x inf H) as [->|(sx & sy & _ & Hinf)];
    [reflexivity|discriminate Hinf].
Qed.

End PyFloatEq.

Section BestSlot.

Context `{T : Torch} `{C : Config}.
Variable test : Model -> float * float.

(** Through a loop none of whose evaluations yielded NaN, either the best
    slot was not written and the best loss stayed equal to what it was, or
    the best slot holds a checkpoint whose loss equals the best loss. *)
Lemma for_epochs_best_slot (epochs : list Z) (s : State) :
  is_nan (best_loss s) = false ->
  let s' := (for_ epochs (epoch_body test) s).1 in
  Forall (fun x => is_nan x = false) (evaluated_mse (new_events s s')) ->
  (files s' !! "best" = files s !! "best"
   /\ eqb (best_loss s') (best_loss s) = true)
  \/ (exists ck, files s' !! "best" = Some ck
        /\ eqb (ck_loss ck) (best_loss s') = true
        /\ ck_epochs_since_improvement ck = 0
        /\ ck_epoch ck ∈ epochs).
Proof.
  cbv zeta. revert s.
  induction epochs as [|epoch epochs IH]; intros s Hs.
  - intros _. left. cbn. split; [reflexivity|]. apply PyFloatMore.eqb_refl, Hs.
  - rewrite for_cons.
    destruct (epoch_body_evaluated test epoch s) as (evs & Htr & Hev).
    cbv zeta in Htr.
    destruct (train epoch s) as [s1 [train_loss|e]] eqn:Htrain.
    + destruct (epoch_body_after_train test epoch s s1 train_loss Htrain)
        as (Hb & _).
      destruct (epoch_new_events test epoch s s1 train_loss Htrain)
        as (_ & Hbest & Hn & Hslot & _ & Hmodel & _).
      cbv zeta in Hbest, Hn, Hslot, Hmodel. rewrite Hb in *. cbn [fst snd] in *.
      set (s' := checkpointed test epoch s
                   (train_reads epoch (model s) (optimizer s) (train_loader s))
                   train_loss) in *.
      destruct Hev as (Heval & _ & _). rewrite Hmodel in Heval.
      destruct (for_epochs_extends test epochs s') as (evs' & Htr').
      specialize (IH s'). rewrite (new_events_eq _ _ _ Htr') in IH.
      rewrite (new_events_eq s _ (evs ++ evs'))
        by (rewrite Htr', Htr, app_assoc; reflexivity).
      rewrite evaluated_mse_app, Heval. cbn [app]. intros Hall.
      apply Forall_cons in Hall. destruct Hall as [Hm Hall].
      assert (Hs' : is_nan (best_loss s') = false)
        by (rewrite Hbest; apply PyFloatFacts.min_not_nan; auto).
      destruct (IH Hs' Hall) as [[Hf He]|(ck & Hf & He & Hz & Hin)].
      * destruct (ltb (test (model s1)).2 (best_loss s)) eqn:Hlt.
        -- right. exists (snapshot epoch s'). rewrite Hf, Hslot.
           split; [reflexivity|]. split; [apply PyFloatEq.eqb_sym, He|].
           split; [exact Hn|]. apply list_elem_of_here.
        -- left. rewrite Hf, Hslot. split; [reflexivity|].
           apply (PyFloatEq.eqb_trans _ (best_loss s')); [exact He|].
           rewrite Hbest. unfold min.
           destruct (ltb (best_loss s) (test (model s1)).2) eqn:Hgt.
           ++ apply PyFloatMore.eqb_refl, Hs.
           ++ apply PyFloatMore.not_ltb_eqb; auto.
      * right. exists ck. repeat (split; [assumption|]).
        apply list_elem_of_further, Hin.
    + intros _. apply train_inv in Htrain. cbv zeta in Htrain.
      destruct Htrain as [Hres _].
      rewrite epoch_body_eq. cbv zeta. rewrite Hres. cbn [fst].
      left. cbn [after files best_loss]. split; [reflexivity|].
      apply PyFloatMore.eqb_refl, Hs.
Qed.

End BestSlot.

(** X18. In a run none of whose evaluations returned NaN as MSE score, the
    best slot keeps track of the best loss: at the end of the run either no
    epoch was flagged best, the best slot is as the run found it and the
    best loss is still [float('inf')], or the best slot holds a checkpoint
    of an epoch of the run, saved with stall counter 0, whose loss equals
    ([==]) the best loss the run ended with. *)
Theorem best_slot_tracks_best_loss `{T : Torch} `{C : Config}
    (test : Model -> float * float) (args : Args)
    (fs : gmap string Checkpoint) (start : Z) (s0 : State) :
  initialize args fs = Ret (start, s0) ->
  Forall (fun x => is_nan x = false)
    (evaluated_mse (run_trace (train_net test args fs))) ->
  exists (s : State) (r : outcome unit),
    train_net test args fs = Ran start s r
    /\ ((files s !! "best" = fs !! "best" /\ best_loss s = inf)
        \/ (exists ck : Checkpoint,
              files s !! "best" = Some ck
              /\ eqb (ck_loss ck) (best_loss s) = true
              /\ ck_epochs_since_improvement ck = 0
              /\ start <= ck_epoch ck < end_epoch args)).
Proof.
  intros Hi.
  destruct (initialize_inv args fs start s0 Hi) as (Htr & Hfs & Hbest).
  rewrite (train_net_eq test args fs start s0 Hi). cbn [run_trace].
  intros Hall. eexists _, _. split; [reflexivity|].
  pose proof (for_epochs_best_slot test (range start (end_epoch args)) s0) as H.
  cbv zeta in H. unfold new_events in H. rewrite Htr, Hbest in H.
  cbn [length] in H. rewrite drop_0 in H.
  destruct (H eq_refl Hall) as [[Hf He]|(ck & Hf & He & Hz & Hin)].
  - left. rewrite Hf, Hfs. split; [reflexivity|].
    apply PyFloatEq.eqb_inf, He.
  - right. exists ck. repeat (split; [assumption|]).
    apply elem_of_range, Hin.
Qed.

(** ** The further theorems at concrete inputs *)

(** A pass over no batch returns 0.0, also with a zero [print_freq]. *)
Lemma train_empty_loader_witness :
  (@iterate Toy.torch (train_loader ToyEdge.state_empty)).1 = []
  /\ (train (T := Toy.torch) (C := ToyEdge.config0) 0 ToyEdge.state_empty).2
     = Ret zero.
Proof.
  split; [reflexivity|].
  rewrite (train_empty_loader (T := Toy.torch) (C := ToyEdge.config0) 0
             ToyEdge.state_empty eq_refl).
  reflexivity.
Defined.

(** With a zero [print_freq] the pass over 2.0, 4.0, 6.0 stops at the
    first batch. *)
Lemma train_zero_print_freq_witness :
  @print_freq ToyEdge.config0 = 0
  /\ (train (T := Toy.torch) (C := ToyEdge.config0) 7 Toy.state0).2
     = Raise ZeroDivisionError
  /\ trace (train (T := Toy.torch) (C := ToyEdge.config0) 7 Toy.state0).1
     = [ModelTrain; ModelCall; ZeroGrad; Backward; ClipGradient (of_Z 5);
        OptimizerStep].
Proof.
  split; [reflexivity|].
  rewrite (train_zero_print_freq (T := Toy.torch) (C := ToyEdge.config0) 7
             Toy.state0 (of_Z 2) [of_Z 4; of_Z 6] eq_refl eq_refl).
  split; reflexivity.
Defined.

Lemma train_raises_iff_witness :
  (train (T := Toy.torch) (C := ToyEdge.config0) 0 Toy.state0).2
  = Raise ZeroDivisionError.
Proof.
  apply (proj2 (train_raises_iff (T := Toy.torch) (C := ToyEdge.config0) 0
                  Toy.state0)).
  split; [reflexivity|discriminate].
Defined.

(** With [print_freq] 2 and three batches, the batches 0 and 2 are logged. *)
Lemma train_progress_indices_witness :
  @print_freq Toy.config <> 0
  /\ (fun r : Z * Z * float * float => r.1.1)
       <$> progress_records
             (new_events Toy.state0
                (train (T := Toy.torch) (C := Toy.config) 5 Toy.state0).1)
     = [(5, 0); (5, 2)].
Proof.
  split; [discriminate|].
  rewrite (train_progress_indices (T := Toy.torch) (C := Toy.config) 5 Toy.state0)
    by discriminate.
  vm_compute. reflexivity.
Defined.

(** The record of batch 2 carries its loss 6.0 and the running mean 4.0. *)
Lemma train_progress_values_witness :
  (5, 2, of_Z 6, of_Z 4)
    ∈ progress_records
        (new_events Toy.state0
           (train (T := Toy.torch) (C := Toy.config) 5 Toy.state0).1)
  /\ [of_Z 2; of_Z 4; of_Z 6] !! Z.to_nat 2 = Some (of_Z 6)
  /\ of_Z 4 = AverageMeter.mean (take (S (Z.to_nat 2)) [of_Z 2; of_Z 4; of_Z 6]).
Proof.
  assert (E : progress_records
                (new_events Toy.state0
                   (train (T := Toy.torch) (C := Toy.config) 5 Toy.state0).1)
              = [(5, 0, of_Z 2, of_Z 2); (5, 2, of_Z 6, of_Z 4)])
    by (vm_compute; reflexivity).
  assert (Hin : (5, 2, of_Z 6, of_Z 4)
                  ∈ progress_records
                      (new_events Toy.state0
                         (train (T := Toy.torch) (C := Toy.config) 5 Toy.state0).1)).
  { rewrite E. apply list_elem_of_further, list_elem_of_here. }
  split; [exact Hin|].
  destruct (train_progress_values (T := Toy.torch) (C := Toy.config) 5 Toy.state0
              5 2 (of_Z 6) (of_Z 4)) as (_ & _ & H1 & H2);
    [discriminate|exact Hin|].
  split; [exact H1|exact H2].
Defined.

(** An epoch whose evaluation yields NaN, from the state of a fresh run. *)
Lemma epoch_with_nan_score_witness :
  let s1 := (train (T := Toy.torch) (C := Toy.config) 0 Toy.state0).1 in
  let s' := (epoch_body (T := Toy.torch) (C := Toy.config) (Toy.test [nan]) 0
               Toy.state0).1 in
  is_nan (Toy.test [nan] (model s1)).2 = true
  /\ best_loss s' = nan
  /\ epochs_since_improvement s' = 1.
Proof.
  cbv zeta.
  assert (H2 : (train (T := Toy.torch) (C := Toy.config) 0 Toy.state0).2
               = Ret (of_Z 4)) by (vm_compute; reflexivity).
  assert (H : train (T := Toy.torch) (C := Toy.config) 0 Toy.state0
              = ((train (T := Toy.torch) (C := Toy.config) 0 Toy.state0).1,
                 Ret (of_Z 4))).
  { rewrite <- H2. apply surjective_pairing. }
  assert (Hnan : is_nan (Toy.test [nan]
                   (model (train (T := Toy.torch) (C := Toy.config) 0
                             Toy.state0).1)).2 = true)
    by (vm_compute; reflexivity).
  split; [exact Hnan|].
  destruct (epoch_with_nan_score (T := Toy.torch) (C := Toy.config)
              (Toy.test [nan]) 0 Toy.state0 _ _ H Hnan) as (Hb & Hn & _).
  split; [exact Hb|exact Hn].
Defined.

(** An epoch whose evaluation yields 0.05, from a state whose best loss is
    NaN. *)
Lemma epoch_after_nan_best_loss_witness :
  let s' := (epoch_body (T := Toy.torch) (C := Toy.config)
               (Toy.test [ratio 5 100]) 0 ToyEdge.state_nan).1 in
  is_nan (best_loss ToyEdge.state_nan) = true
  /\ save_records (new_events ToyEdge.state_nan s') = [(0, 1, ratio 5 100, false)].
Proof.
  cbv zeta.
  assert (H2 : (train (T := Toy.torch) (C := Toy.config) 0 ToyEdge.state_nan).2
               = Ret (of_Z 4)) by (vm_compute; reflexivity).
  assert (H : train (T := Toy.torch) (C := Toy.config) 0 ToyEdge.state_nan
              = ((train (T := Toy.torch) (C := Toy.config) 0 ToyEdge.state_nan).1,
                 Ret (of_Z 4))).
  { rewrite <- H2. apply surjective_pairing. }
  split; [reflexivity|].
  destruct (epoch_after_nan_best_loss (T := Toy.torch) (C := Toy.config)
              (Toy.test [ratio 5 100]) 0 ToyEdge.state_nan _ _ H eq_refl)
    as (_ & _ & Hr & _).
  rewrite Hr. vm_compute. reflexivity.
Defined.

(** An epoch whose evaluation yields 0.06, from a best loss of 0.05. *)
Lemma epoch_without_improvement_keeps_best_loss_witness :
  let s1 := (train (T := Toy.torch) (C := Toy.config) 0 ToyEdge.state_stalled).1 in
  let s' := (epoch_body (T := Toy.torch) (C := Toy.config)
               (Toy.test [ratio 6 100]) 0 ToyEdge.state_stalled).1 in
  ltb (Toy.test [ratio 6 100] (model s1)).2 (best_loss ToyEdge.state_stalled)
    = false
  /\ eqb (best_loss s') (best_loss ToyEdge.state_stalled) = true.
Proof.
  cbv zeta.
  assert (H2 : (train (T := Toy.torch) (C := Toy.config) 0
                  ToyEdge.state_stalled).2 = Ret (of_Z 4))
    by (vm_compute; reflexivity).
  assert (H : train (T := Toy.torch) (C := Toy.config) 0 ToyEdge.state_stalled
              = ((train (T := Toy.torch) (C := Toy.config) 0
                    ToyEdge.state_stalled).1, Ret (of_Z 4))).
  { rewrite <- H2. apply surjective_pairing. }
  assert (Hlt : ltb (Toy.test [ratio 6 100]
                  (model (train (T := Toy.torch) (C := Toy.config) 0
                            ToyEdge.state_stalled).1)).2
                  (best_loss ToyEdge.state_stalled) = false)
    by (vm_compute; reflexivity).
  split; [exact Hlt|].
  apply (epoch_without_improvement_keeps_best_loss (T := Toy.torch)
           (C := Toy.config) (Toy.test [ratio 6 100]) 0 ToyEdge.state_stalled
           _ _ H); [vm_compute; reflexivity|vm_compute; reflexivity|exact Hlt].
Defined.

(** The scalars of epoch 0 of a fresh run whose evaluation yields 0.05. *)
Lemma epoch_scalars_witness :
  scalars (new_events Toy.state0
             (epoch_body (T := Toy.torch) (C := Toy.config)
                (Toy.test [ratio 5 100]) 0 Toy.state0).1)
  = [("model/train_loss"%string, of_Z 4, 0);
     ("model/sad_loss"%string, zero, 0);
     ("model/mse_loss"%string, ratio 5 100, 0)].
Proof.
  assert (H2 : (train (T := Toy.torch) (C := Toy.config) 0 Toy.state0).2
               = Ret (of_Z 4)) by (vm_compute; reflexivity).
  assert (H : train (T := Toy.torch) (C := Toy.config) 0 Toy.state0
              = ((train (T := Toy.torch) (C := Toy.config) 0 Toy.state0).1,
                 Ret (of_Z 4))).
  { rewrite <- H2. apply surjective_pairing. }
  rewrite (epoch_scalars (T := Toy.torch) (C := Toy.config)
             (Toy.test [ratio 5 100]) 0 Toy.state0 _ _ H).
  vm_compute. reflexivity.
Defined.

(** The fresh run of the scenario: its saved records form a chain from
    stall counter 0 over the epochs 0, 1, 2. *)
Lemma run_stall_chain_witness :
  initialize (T := Toy.torch) (Toy.args None 3) ∅ = Ret (0, Toy.state0)
  /\ stall_chain 0 (range 0 3)
       (save_records
          (run_trace (Toy.run [ratio 5 100; ratio 6 100; ratio 4 100] None 3 ∅))).
Proof.
  split; [reflexivity|].
  exact (run_stall_chain (T := Toy.torch) (C := Toy.config)
           (Toy.test [ratio 5 100; ratio 6 100; ratio 4 100]) (Toy.args None 3)
           ∅ 0 Toy.state0 eq_refl).
Defined.

Lemma saved_stall_counters_witness :
  0 <= epochs_since_improvement Toy.state0
  /\ Forall (fun r : Z * Z * float * bool =>
               0 <= r.1.1.2 /\ (r.2 = true <-> r.1.1.2 = 0)
               /\ r.1.1.2 <= 0 + (r.1.1.1 - 0) + 1
               /\ 0 <= r.1.1.1 < 3)
       (save_records
          (run_trace (Toy.run [ratio 5 100; ratio 6 100; ratio 4 100] None 3 ∅))).
Proof.
  split; [cbn; lia|].
  apply (saved_stall_counters (T := Toy.torch) (C := Toy.config)
           (Toy.test [ratio 5 100; ratio 6 100; ratio 4 100]) (Toy.args None 3)
           ∅ 0 Toy.state0 eq_refl).
  cbn. lia.
Defined.

(** Resuming from a checkpoint whose saved loss is 0.04 or 0.9. *)
Lemma train_net_ignores_saved_loss_witness :
  ToyEdge.files0 !! "latest" = Some ToyEdge.ck0
  /\ same_run_but_files
       (Toy.run [ratio 5 100] (Some "latest") 4
          (<["latest" := with_loss ToyEdge.ck0 (ratio 9 10)]> ToyEdge.files0))
       (Toy.run [ratio 5 100] (Some "latest") 4 ToyEdge.files0).
Proof.
  assert (H : ToyEdge.files0 !! "latest" = Some ToyEdge.ck0)
    by apply lookup_singleton_eq.
  split; [exact H|].
  exact (train_net_ignores_saved_loss (T := Toy.torch) (C := Toy.config)
           (Toy.test [ratio 5 100]) (Toy.args (Some "latest") 4) ToyEdge.files0
           "latest" ToyEdge.ck0 (ratio 9 10) eq_refl H).
Defined.

Lemma fresh_run_ignores_files_witness :
  same_run_but_files (Toy.run [ratio 5 100] None 2 ∅)
    (Toy.run [ratio 5 100] None 2 ToyEdge.files0).
Proof.
  exact (proj1 (fresh_run_ignores_files (T := Toy.torch) (C := Toy.config)
                  (Toy.test [ratio 5 100]) (Toy.args None 2) ∅ ToyEdge.files0
                  eq_refl)).
Defined.

(** A fresh run with a zero [print_freq] stops in epoch 0. *)
Lemma train_net_zero_print_freq_witness :
  @print_freq ToyEdge.config0 = 0
  /\ exists s : State,
       ToyEdge.run0 [ratio 5 100] None 3 ∅ = Ran 0 s (Raise ZeroDivisionError)
       /\ trace s = [ModelTrain; ModelCall; ZeroGrad; Backward;
                     ClipGradient (of_Z 5); OptimizerStep]
       /\ files s = ∅
       /\ best_loss s = inf
       /\ epochs_since_improvement s = 0.
Proof.
  split; [reflexivity|].
  apply (train_net_zero_print_freq (T := Toy.torch) (C := ToyEdge.config0)
           (Toy.test [ratio 5 100]) (Toy.args None 3) ∅ 0 Toy.state0).
  - reflexivity.
  - reflexivity.
  - cbn. lia.
  - discriminate.
Defined.

(** After the fresh run of the scenario the latest slot holds epoch 2, and
    resuming from it starts at epoch 3. *)
Lemma resume_from_latest_witness :
  exists s : State,
    Toy.run [ratio 5 100; ratio 6 100; ratio 4 100] None 3 ∅ = Ran 0 s (Ret tt)
    /\ files s !! "latest" = Some (snapshot (3 - 1) s)
    /\ forall last : Z,
         exists s0' : State,
           initialize (resume_args (Toy.args None 3) "latest" last) (files s)
             = Ret (3, s0')
           /\ model s0' = model s /\ optimizer s0' = optimizer s
           /\ epochs_since_improvement s0' = epochs_since_improvement s
           /\ best_loss s0' = inf.
Proof.
  apply (resume_from_latest (T := Toy.torch) (C := Toy.config)
           (Toy.test [ratio 5 100; ratio 6 100; ratio 4 100]) (Toy.args None 3)
           ∅ 0 Toy.state0).
  - discriminate.
  - reflexivity.
  - cbn. lia.
Defined.

(** [valid] over the batches of losses 2.0, 4.0, 6.0 returns 4.0. *)
Lemma valid_returns_running_mean_witness :
  forward_losses (T := Toy.torch) (ToyEdge.model_eval 0)
    [of_Z 2; of_Z 4; of_Z 6] <> []
  /\ v_result (valid (T := Toy.torch) ToyEdge.model_eval
                 [of_Z 2; of_Z 4; of_Z 6] 0)
     = AverageMeter.mean [of_Z 2; of_Z 4; of_Z 6]
  /\ v_result (valid (T := Toy.torch) ToyEdge.model_eval [] 0) = zero.
Proof.
  split; [discriminate|].
  destruct (valid_returns_running_mean (T := Toy.torch) ToyEdge.model_eval
              [of_Z 2; of_Z 4; of_Z 6] 0) as (_ & Hmean & _).
  destruct (valid_returns_running_mean (T := Toy.torch) ToyEdge.model_eval
              [] 0) as (_ & _ & Hempty & _).
  split; [apply Hmean; discriminate|].
  apply Hempty. reflexivity.
Defined.

(** A run of three epochs whose evaluations return 0.05, 0.06 and 0.04,
    though the evaluation would return NaN on the model of a fourth epoch:
    the best slot holds a checkpoint of the run whose loss is the final
    best loss. *)
Lemma best_slot_tracks_best_loss_witness :
  Forall (fun x => is_nan x = false)
    (evaluated_mse
       (run_trace
          (train_net (T := Toy.torch) (C := Toy.config)
             (Toy.test [ratio 5 100; ratio 6 100; ratio 4 100; nan])
             (Toy.args None 3) ∅)))
  /\ exists (s : State) (r : outcome unit),
       train_net (T := Toy.torch) (C := Toy.config)
         (Toy.test [ratio 5 100; ratio 6 100; ratio 4 100; nan])
         (Toy.args None 3) ∅ = Ran 0 s r
       /\ ((files s !! "best" = (∅ : gmap string Checkpoint) !! "best"
            /\ best_loss s = inf)
           \/ (exists ck : Checkpoint,
                 files s !! "best" = Some ck
                 /\ eqb (ck_loss ck) (best_loss s) = true
                 /\ ck_epochs_since_improvement ck = 0
                 /\ 0 <= ck_epoch ck < 3)).
Proof.
  assert (E : evaluated_mse
                (run_trace
                   (train_net (T := Toy.torch) (C := Toy.config)
                      (Toy.test [ratio 5 100; ratio 6 100; ratio 4 100; nan])
                      (Toy.args None 3) ∅))
              = [ratio 5 100; ratio 6 100; ratio 4 100])
    by (vm_compute; reflexivity).
  assert (H : Forall (fun x => is_nan x = false)
                (evaluated_mse
                   (run_trace
                      (train_net (T := Toy.torch) (C := Toy.config)
                         (Toy.test [ratio 5 100; ratio 6 100; ratio 4 100; nan])
                         (Toy.args None 3) ∅)))).
  { rewrite E. repeat constructor. }
  split; [exact H|].
  apply (best_slot_tracks_best_loss (T := Toy.torch) (C := Toy.config)
           (Toy.test [ratio 5 100; ratio 6 100; ratio 4 100; nan])
           (Toy.args None 3) ∅ 0 Toy.state0 eq_refl).
  exact H.
Defined.

(** A pass over three batches: the four update events, three times, and
    gradients clipped to the bound 5.0 after the last batch's loss 6.0. *)
Example train_three_batches :
  List.filter is_update_event
    (new_events Toy.state0
       (train (T := Toy.torch) (C := Toy.config) 0 Toy.state0).1)
  = [ZeroGrad; Backward; ClipGradient (of_Z 5); OptimizerStep;
     ZeroGrad; Backward; ClipGradient (of_Z 5); OptimizerStep;
     ZeroGrad; Backward; ClipGradient (of_Z 5); OptimizerStep]
  /\ optimizer (train (T := Toy.torch) (C := Toy.config) 0 Toy.state0).1
     = [[of_Z 5; of_Z 5]].
Proof. split; vm_compute; reflexivity. Qed.
